(** * MilvusLTM: a key-value long-term memory over a vector index

    Shallow embedding of
    [omagent_core/memories/ltms/ltm_milvus.py] (class [MilvusLTM]).

    The store is a facade over a vector-capable storage engine.  Every
    method of the class is embedded as a computation in a small monad
    that threads the state of the storage engine and may raise a Python
    exception.  State changes made before an exception is raised are
    kept: the engine is an external system and nothing rolls it back. *)

From Stdlib Require Import ZArith String Ascii Strings.Byte.
From Stdlib Require Import Floats.PrimFloat.
From Stdlib Require Import NArith Lia.
From stdpp Require Import base option list strings gmap pretty.

Set Warnings "-register-all".
Local Open Scope Z_scope.

(** ** Python values *)

(** The fragment of Python objects the store handles: keys, payloads,
    embeddings and the argument of [__setitem__] are all [Any] in the
    source.  Dictionaries are keyed by strings, which is all the source
    looks up (["value"] and ["embedding"]). *)
Inductive PyVal : Type :=
  | PyNone
  | PyBool (b : bool)
  | PyInt (z : Z)
  | PyFloat (f : float)
  | PyStr (s : string)
  | PyList (l : list PyVal)
  | PyDict (d : gmap string PyVal).

(** [x is None] *)
Definition is_None (v : PyVal) : bool :=
  match v with PyNone => true | _ => false end.

(** A Python float vector: a list all of whose items are floats. *)
Definition as_float (v : PyVal) : option float :=
  match v with PyFloat f => Some f | _ => None end.

Definition as_vector (v : PyVal) : option (list float) :=
  match v with
  | PyList l => mapM as_float l
  | _ => None
  end.

(** Python exceptions the methods raise or let through. *)
Inductive Exn : Type :=
  | KeyError (msg : string)
  | ValueError (msg : string)
  | PicklingError
  | UnpicklingError
  | Base64Error
  | IndexError
  | AttributeError
  | MilvusException.

Inductive Result (A : Type) : Type :=
  | Ok (a : A)
  | Raise (e : Exn).
Arguments Ok {A} a.
Arguments Raise {A} e.

(** The Python built-ins and standard-library functions the source
    calls: [str], [pickle.dumps]/[pickle.loads] and
    [base64.b64encode]/[base64.b64decode], with the laws the store
    relies on.  [pickle_dumps] is partial (not every object can be
    pickled); decoding is partial (not every string is an encoding). *)
Class PyRuntime : Type := {
  py_str : PyVal -> string;
  pickle_dumps : PyVal -> option (list byte);
  pickle_loads : list byte -> option PyVal;
  b64encode : list byte -> string;
  b64decode : string -> option (list byte);
  py_str_str : forall s, py_str (PyStr s) = s;
  pickle_loads_dumps :
    forall v bs, pickle_dumps v = Some bs -> pickle_loads bs = Some v;
  b64decode_encode : forall bs, b64decode (b64encode bs) = Some bs
}.

(** ** The storage engine *)

(** Modelled from the spec: the vector storage engine behind
    [MilvusConnector._client] (spec section 6, "Consumed from the backend
    collaborator"): [has_collection], [create_collection], [query],
    [insert], [delete] and [search].  The connector and the engine are
    not part of the source file.  A collection has a schema with a
    bounded string key, a bounded string value and a float vector of
    fixed dimension (spec section 3).  The engine refuses a record whose
    vector has another dimension; whether it enforces the declared
    lengths, and which embeddings besides lists of floats it reads as
    vectors, differs between engines and is a parameter of the model.
    A [query] or a [delete] against a collection that does not exist is
    refused by the engine with its own exception; the source has no
    handler for it. *)

Record Schema : Type := {
  key_max_length : Z;
  value_max_length : Z;
  vector_dim : Z
}.

Record Row : Type := {
  row_key : string;
  row_value : string;
  row_embedding : list float
}.

Record Collection : Type := {
  coll_schema : Schema;
  coll_rows : list Row
}.

(** The engine's state: its collections by name. *)
Abbreviation Backend := (gmap string Collection).

(** One item of the [data] list passed to [insert]: the dictionary
    [{"key": ..., "value": ..., "embedding": ...}]. *)
Record Entity : Type := {
  ent_key : string;
  ent_value : string;
  ent_embedding : PyVal
}.

(** One match of a [search]: [match["entity"]["key"]],
    [match["entity"]["value"]] and [match["distance"]]. *)
Record Hit : Type := {
  hit_key : string;
  hit_value : string;
  hit_distance : float
}.

(** The engine behind the connector: the similarity metric of the index
    (COSINE in the source) as the engine computes it, whether the engine
    enforces the declared maximal lengths of [key] and [value], and how
    it reads the [embedding] of a record as a vector (a list of floats
    is read as itself; an engine may accept more, such as integers). *)
Class VectorIndex : Type := {
  similarity : list float -> list float -> float;
  enforces_lengths : bool;
  read_vector : PyVal -> option (list float);
  read_vector_floats :
    forall e v, as_vector e = Some v -> read_vector e = Some v
}.

(** Modelled from the spec: the filter expressions of the engine
    ([filterExpr] of [query] and [delete], "equality" queries by key).
    The store builds three shapes of expression: [key == "<literal>"],
    [key != ""] and the empty expression.  [FNone] is a filter no row
    satisfies. *)
Inductive Filter : Type :=
  | FAll
  | FNone
  | FKeyEq (lit : string)
  | FKeyNe (lit : string).

(** The double-quote character, as a string. *)
Definition dquote : string := String "034"%char EmptyString.

(** [strip_prefix p (p +:+ s) = Some s]. *)
Fixpoint strip_prefix (p s : string) : option string :=
  match p with
  | EmptyString => Some s
  | String a p' =>
      match s with
      | EmptyString => None
      | String b s' => if Ascii.eqb a b then strip_prefix p' s' else None
      end
  end.

(** A string with no double quote and no backslash: the text between
    the quotes of a filter is the string itself only for these.  The
    source puts [key_str] between the quotes unescaped. *)
Fixpoint plain (s : string) : bool :=
  match s with
  | EmptyString => true
  | String c s' =>
      negb (Ascii.eqb c "034"%char) && negb (Ascii.eqb c "092"%char)
      && plain s'
  end.

(** Modelled from the spec: reading the string literal of a filter.
    [strip_closing_quote (lit +:+ dquote) = Some lit]: the text up to
    the closing quote. *)
Fixpoint strip_closing_quote (s : string) : option string :=
  match s with
  | EmptyString => None
  | String c EmptyString =>
      if Ascii.eqb c "034"%char then Some EmptyString else None
  | String c s' => String c <$> strip_closing_quote s'
  end.

(** Modelled from the spec: a comparison of the key with the text
    between the quotes.  A plain text is the literal compared with.  A
    text holding a quote or a backslash is not the string the store put
    there; a key written through such a text is not found again, which
    the model renders as a filter that no row satisfies.  The statements
    about a given key assume its string is plain. *)
Definition compare_key (cmp : string -> Filter) (text : string) : Filter :=
  if plain text then cmp text else FNone.

(** Modelled from the spec: how the engine reads a filter expression;
    [None] is an expression it rejects. *)
Definition parse_filter (expr : string) : option Filter :=
  match expr with
  | EmptyString => Some FAll
  | _ =>
      match strip_prefix ("key == " +:+ dquote) expr with
      | Some rest => compare_key FKeyEq <$> strip_closing_quote rest
      | None =>
          match strip_prefix ("key != " +:+ dquote) expr with
          | Some rest => compare_key FKeyNe <$> strip_closing_quote rest
          | None => None
          end
      end
  end.

(** Modelled from the spec: a row satisfies a filter (exact match on
    the key). *)
Definition matches (f : Filter) (r : Row) : bool :=
  match f with
  | FAll => true
  | FNone => false
  | FKeyEq lit => String.eqb (row_key r) lit
  | FKeyNe lit => negb (String.eqb (row_key r) lit)
  end.

Global Instance matches_dec f r : Decision (matches f r = true).
Proof. solve_decision. Defined.

Arguments matches : simpl never.

(** ** The store monad *)

(** A computation reads and updates the engine's state and either
    returns a value or raises; the state it leaves is kept in both
    cases. *)
Definition M (A : Type) : Type := Backend -> Result A * Backend.

Global Instance M_ret : MRet M := fun A a st => (Ok a, st).

Global Instance M_bind : MBind M := fun A B k m st =>
  match m st with
  | (Ok a, st') => k a st'
  | (Raise e, st') => (Raise e, st')
  end.

Definition raise {A} (e : Exn) : M A := fun st => (Raise e, st).

(** [try: m except KeyError: handler]; any other exception passes. *)
Definition except_KeyError {A} (m : M A) (handler : Exn -> M A) : M A :=
  fun st =>
    match m st with
    | (Raise (KeyError msg), st') => handler (KeyError msg) st'
    | r => r
    end.

(** Lift a pure, fallible step. *)
Definition lift {A} (r : Result A) : M A := fun st => (r, st).

(** ** Operations of the engine *)

(** The rows of a collection, none when it does not exist. *)
Definition rows_of (name : string) (st : Backend) : list Row :=
  match st !! name with
  | Some c => coll_rows c
  | None => []
  end.

(** The collection-existence state. *)
Definition exists_collection (name : string) (st : Backend) : bool :=
  match st !! name with
  | Some _ => true
  | None => false
  end.

(** Modelled from the spec: [hasCollection(name) -> bool]. *)
Definition has_collection (name : string) : M bool :=
  fun st => (Ok (exists_collection name st), st).

(** Modelled from the spec: [createCollection(name, schema, indexSpec)];
    creating a collection that exists is a success and changes nothing
    ("treating already exists as success"). *)
Definition create_collection (name : string) (schema : Schema) : M unit :=
  fun st =>
    match st !! name with
    | Some _ => (Ok tt, st)
    | None =>
        (Ok tt, <[name := {| coll_schema := schema; coll_rows := [] |}]> st)
    end.

(** Modelled from the spec: the optional [limit] of [query]; the
    engine refuses a limit that is not positive. *)
Definition apply_limit {A} (limit : option Z) (l : list A)
    : option (list A) :=
  match limit with
  | Some n => if bool_decide (0 < n) then Some (take (Z.to_nat n) l) else None
  | None => Some l
  end.

(** Modelled from the spec: [query(collection, filterExpr, outputFields,
    limit)]: the rows that satisfy the filter.  The engine refuses the
    query of a collection that does not exist.  The rows are listed in
    the order they were inserted, a convention of the model: the engine
    promises no order between the rows of different keys. *)
Definition query (name expr : string) (limit : option Z) : M (list Row) :=
  fun st =>
    match parse_filter expr, st !! name with
    | Some f, Some c =>
        match apply_limit limit
                (filter (fun r => matches f r = true) (coll_rows c)) with
        | Some rows => (Ok rows, st)
        | None => (Raise MilvusException, st)
        end
    | _, _ => (Raise MilvusException, st)
    end.

(** Modelled from the spec: the schema check of the engine.  A record
    fits a schema when the engine reads its embedding as a vector of
    the declared dimension and, on an engine that enforces them, its
    key and value are within the declared lengths. *)
Definition fits `{VectorIndex} (s : Schema) (e : Entity) : option Row :=
  match read_vector (ent_embedding e) with
  | Some v =>
      if bool_decide ((enforces_lengths = true ->
                       Z.of_nat (String.length (ent_key e)) <= key_max_length s
                       /\ Z.of_nat (String.length (ent_value e))
                          <= value_max_length s)
                      /\ Z.of_nat (length v) = vector_dim s)
      then Some {| row_key := ent_key e;
                   row_value := ent_value e;
                   row_embedding := v |}
      else None
  | None => None
  end.

(** Modelled from the spec: [insert(collection, records)]: rejected as a
    whole when the collection does not exist or a record does not fit;
    otherwise the records are appended.  A record whose key is already
    stored is appended like any other: the engine modelled keeps both
    (an engine that replaces the stored record itself is not
    modelled). *)
Definition insert `{VectorIndex} (name : string) (data : list Entity)
    : M unit :=
  fun st =>
    match st !! name with
    | None => (Raise MilvusException, st)
    | Some c =>
        match mapM (fits (coll_schema c)) data with
        | None => (Raise MilvusException, st)
        | Some rows =>
            (Ok tt, <[name := {| coll_schema := coll_schema c;
                                 coll_rows := coll_rows c ++ rows |}]> st)
        end
    end.

(** Modelled from the spec: [delete(collection, filter=filterExpr)]:
    removes the rows that satisfy the filter; refused for a collection
    that does not exist. *)
Definition delete (name expr : string) : M unit :=
  fun st =>
    match parse_filter expr, st !! name with
    | Some f, Some c =>
        (Ok tt, <[name := {| coll_schema := coll_schema c;
                             coll_rows :=
                               filter (fun r => matches f r <> true)
                                      (coll_rows c) |}]> st)
    | _, _ => (Raise MilvusException, st)
    end.

(** Modelled from the spec: [delete(collection, ids)].  The client's
    [delete] has the signature [delete(collection_name, ids=None,
    timeout=None, filter=None)]: its second positional parameter is the
    list of primary keys of the records to remove (one key stands for
    the list of it), and a filter expression is passed by keyword.  The
    rows whose key is one of [ids] are removed. *)
Definition delete_ids (name : string) (ids : list string) : M unit :=
  fun st =>
    match st !! name with
    | Some c =>
        (Ok tt, <[name := {| coll_schema := coll_schema c;
                             coll_rows :=
                               filter (fun r => row_key r ∉ ids)
                                      (coll_rows c) |}]> st)
    | None => (Raise MilvusException, st)
    end.

(** Modelled from the spec: the ranking of [search], best match first,
    ties in storage order. *)
Fixpoint insert_hit (h : Hit) (l : list Hit) : list Hit :=
  match l with
  | [] => [h]
  | h' :: l' =>
      if PrimFloat.ltb (hit_distance h') (hit_distance h)
      then h :: l
      else h' :: insert_hit h l'
  end.

(** Modelled from the spec: the matches sorted by descending score. *)
Definition rank (hits : list Hit) : list Hit := foldr insert_hit [] hits.

(** Modelled from the spec: the match of a row, with its similarity to
    the query vector as distance. *)
Definition score `{VectorIndex} (q : list float) (r : Row) : Hit :=
  {| hit_key := row_key r;
     hit_value := row_value r;
     hit_distance := similarity q (row_embedding r) |}.

(** Modelled from the spec: the candidates of one query vector, the
    [limit] best rows. *)
Definition candidates `{VectorIndex}
    (q : list float) (limit : Z) (rows : list Row) : list Hit :=
  take (Z.to_nat limit) (rank (score q <$> rows)).

(** Modelled from the spec: [search(collection, queryVectors, ...,
    limit, ...)]: one ranked list of matches per query vector; a query
    vector of the wrong dimension is rejected.  A collection with no
    record has no matches ("empty collection: empty result, not an
    error"), which the model extends to a collection that does not
    exist. *)
Definition search `{VectorIndex}
    (name : string) (data : list (list float)) (limit : Z)
    : M (list (list Hit)) :=
  fun st =>
    match st !! name with
    | None => (Ok ((fun _ => []) <$> data), st)
    | Some c =>
        if forallb (fun q => Z.of_nat (length q) =? vector_dim (coll_schema c))
                   data
        then (Ok ((fun q => candidates q limit (coll_rows c)) <$> data), st)
        else (Raise MilvusException, st)
    end.

(** Modelled from the spec: the backend collaborator consumed by the
    store (section 6) has no operation [load]; the attribute lookup
    [_client.load] fails. *)
Definition load : M unit := raise AttributeError.

(** ** The store: class [MilvusLTM] *)

(** The fields of the class ([storage_name] defaults to ["default"] and
    [dim] to 128); [milvus_ltm_client] is the handle to the engine,
    whose state the monad threads. *)
Record MilvusLTM : Type := {
  storage_name : string;
  dim : Z
}.

(** The schema [_create_collection] declares: [key] VARCHAR(256),
    [value] VARCHAR(65535), [embedding] FLOAT_VECTOR([dim]). *)
Definition ltm_schema (self : MilvusLTM) : Schema :=
  {| key_max_length := 256;
     value_max_length := 65535;
     vector_dim := dim self |}.

(** [f'key == "{key_str}"'] *)
Definition key_filter (key_str : string) : string :=
  "key == " +:+ dquote +:+ key_str +:+ dquote.

(** ['key != ""'] *)
Definition nonempty_key_filter : string :=
  "key != " +:+ dquote +:+ dquote.

(** [f"Key {key} not found"]; formatting an object with an empty format
    specification gives its [str]. *)
Definition not_found_msg (key_repr : string) : string :=
  "Key " +:+ key_repr +:+ " not found".

(** The messages of the two [ValueError]s of [__setitem__]. *)
Definition bad_value_msg : string :=
  "When setting an item, value must be a dictionary containing 'value' and 'embedding' keys.".

Definition no_embedding_msg : string :=
  "An embedding vector must be provided.".

Section Store.
Context `{PyRuntime} `{VectorIndex}.

(** [pickle.loads(base64.b64decode(value_base64))].  A text that is
    not Base64 and bytes that are not a pickle are the two failures;
    they are rendered as [Base64Error] and [UnpicklingError], whatever
    the class of the exception Python raises for them. *)
Definition loads_b64 (value_base64 : string) : Result PyVal :=
  match b64decode value_base64 with
  | None => Raise Base64Error
  | Some value_bytes =>
      match pickle_loads value_bytes with
      | None => Raise UnpicklingError
      | Some value => Ok value
      end
  end.

(** [_create_collection] (lines 22-66): declares the collection, with a
    FLAT/COSINE index on the embedding, unless it exists. *)
Definition _create_collection (self : MilvusLTM) : M unit :=
  present ← has_collection (storage_name self);
  if negb present
  then create_collection (storage_name self) (ltm_schema self)
  else mret tt.

(** [__getitem__] (lines 68-80): the decoded value of the first row the
    exact-match query returns, [KeyError] when it returns none. *)
Definition __getitem__ (self : MilvusLTM) (key : PyVal) : M PyVal :=
  let key_str := py_str key in
  let expr := key_filter key_str in
  res ← query (storage_name self) expr None;
  match res with
  | r :: _ => lift (loads_b64 (row_value r))
  | [] => raise (KeyError (not_found_msg (py_str key)))
  end.

(** [__contains__] (lines 130-139): [len(res) > 0]. *)
Definition __contains__ (self : MilvusLTM) (key : PyVal) : M bool :=
  let key_str := py_str key in
  let expr := key_filter key_str in
  res ← query (storage_name self) expr None;
  mret (bool_decide (0 < length res)%nat).

(** [__delitem__] (lines 122-128): [key_str in self] is
    [__contains__(key_str)].  On line 126 the expression is the second
    positional argument of [delete], its [ids]; [clear] (line 196)
    passes its expression as [filter=expr]. *)
Definition __delitem__ (self : MilvusLTM) (key : PyVal) : M unit :=
  let key_str := py_str key in
  present ← __contains__ self (PyStr key_str);
  if (present : bool)
  then delete_ids (storage_name self) [key_filter key_str]
  else raise (KeyError (not_found_msg (py_str key))).

(** [isinstance(value, dict) and "value" in value and "embedding" in
    value], with the two items when the test holds. *)
Definition value_and_embedding (value : PyVal) : option (PyVal * PyVal) :=
  match value with
  | PyDict d =>
      match d !! "value"%string, d !! "embedding"%string with
      | Some actual_value, Some embedding => Some (actual_value, embedding)
      | _, _ => None
      end
  | _ => None
  end.

(** [__setitem__] (lines 82-120), in the order of the source: the
    collection is ensured first, then the value is checked and pickled,
    then the embedding is checked for [None], then an existing record of
    the key is deleted, then the new record is inserted. *)
Definition __setitem__ (self : MilvusLTM) (key value : PyVal) : M unit :=
  _create_collection self;;
  let key_str := py_str key in
  match value_and_embedding value with
  | None => raise (ValueError bad_value_msg)
  | Some (actual_value, embedding) =>
      match pickle_dumps actual_value with
      | None => raise PicklingError
      | Some value_bytes =>
          let value_base64 := b64encode value_bytes in
          if is_None embedding
          then raise (ValueError no_embedding_msg)
          else
            present ← __contains__ self (PyStr key_str);
            (if (present : bool)
             then __delitem__ self (PyStr key_str)
             else mret tt);;
            insert (storage_name self)
                   [ {| ent_key := key_str;
                        ent_value := value_base64;
                        ent_embedding := embedding |} ]
      end
  end.

(** [__len__] (lines 147-153). *)
Definition __len__ (self : MilvusLTM) : M nat :=
  let expr := nonempty_key_filter in
  results ← query (storage_name self) expr None;
  mret (length results).

(** [keys(limit=10)] (lines 155-160).  The generators [keys], [values]
    and [items] are embedded as the list a full iteration produces. *)
Definition keys (self : MilvusLTM) (limit : option Z) : M (list string) :=
  let limit := default 10 limit in
  let expr := EmptyString in
  res ← query (storage_name self) expr (Some limit);
  mret (row_key <$> res).

(** A [for] loop that decodes each item and stops at the first
    exception. *)
Fixpoint traverse {A B} (f : A -> Result B) (l : list A) : Result (list B) :=
  match l with
  | [] => Ok []
  | x :: l' =>
      match f x with
      | Raise e => Raise e
      | Ok y =>
          match traverse f l' with
          | Raise e => Raise e
          | Ok ys => Ok (y :: ys)
          end
      end
  end.

(** [values] (lines 162-172). *)
Definition values (self : MilvusLTM) : M (list PyVal) :=
  let expr := nonempty_key_filter in
  load;;
  res ← query (storage_name self) expr None;
  lift (traverse (fun item => loads_b64 (row_value item)) res).

(** [items] (lines 174-184). *)
Definition items (self : MilvusLTM) : M (list (string * PyVal)) :=
  let expr := nonempty_key_filter in
  res ← query (storage_name self) expr None;
  lift (traverse
          (fun item =>
             match loads_b64 (row_value item) with
             | Raise e => Raise e
             | Ok value => Ok (row_key item, value)
             end) res).

(** [get(key, default=None)] (lines 186-190). *)
Definition get (self : MilvusLTM) (key : PyVal) (default : option PyVal)
    : M PyVal :=
  let default := option.default PyNone default in
  except_KeyError (__getitem__ self key) (fun _ => mret default).

(** [clear] (lines 192-196). *)
Definition clear (self : MilvusLTM) : M unit :=
  let expr := nonempty_key_filter in
  delete (storage_name self) expr.

(** [pop(key, default=None)] (lines 198-207); a default of [None] is no
    default. *)
Definition pop (self : MilvusLTM) (key : PyVal) (default : option PyVal)
    : M PyVal :=
  let default := option.default PyNone default in
  except_KeyError
    (value ← __getitem__ self key;
     __delitem__ self key;;
     mret value)
    (fun e => if negb (is_None default) then mret default else raise e).

(** [update] (lines 209-211). *)
Fixpoint update (self : MilvusLTM) (other : list (PyVal * PyVal)) : M unit :=
  match other with
  | [] => mret tt
  | (key, value) :: rest => __setitem__ self key value;; update self rest
  end.

(** One turn of the loop of [get_by_vector] (lines 231-238): the match
    is decoded, then kept when [distance >= threshold]. *)
Definition keep_match (threshold : float)
    (items : Result (list (string * PyVal * float))) (m : Hit)
    : Result (list (string * PyVal * float)) :=
  match items with
  | Raise e => Raise e
  | Ok items =>
      let key := hit_key m in
      match loads_b64 (hit_value m) with
      | Raise e => Raise e
      | Ok value =>
          let distance := hit_distance m in
          if PrimFloat.leb threshold distance
          then Ok (items ++ [(key, value, distance)])
          else Ok items
      end
  end.

(** [get_by_vector(embedding, top_k=10, threshold=0.0)] (lines
    213-240); the loop runs over [results[0]]. *)
Definition get_by_vector (self : MilvusLTM) (embedding : list float)
    (top_k : option Z) (threshold : option float)
    : M (list (string * PyVal * float)) :=
  let top_k := default 10 top_k in
  let threshold := default 0%float threshold in
  results ← search (storage_name self) [embedding] top_k;
  match results with
  | [] => raise IndexError
  | results0 :: _ => lift (foldl (keep_match threshold) (Ok []) results0)
  end.

End Store.

(** ** Derived notions used in the statements *)

(** The live records of a key: the rows an exact-match query finds. *)
Definition live_records (name key_str : string) (st : Backend) : list Row :=
  filter (fun r => matches (FKeyEq key_str) r = true) (rows_of name st).

(** The rows the query of [__getitem__] and [__contains__] finds for a
    key: its live records when the key's string is plain. *)
Definition found (name key_str : string) (st : Backend) : list Row :=
  filter (fun r => matches (compare_key FKeyEq key_str) r = true)
         (rows_of name st).

(** The rows left by the [delete] call of [__delitem__], which gets the
    filter text of the key as the one primary key to remove. *)
Definition without_ids (ids : list string) (rows : list Row) : list Row :=
  filter (fun r => row_key r ∉ ids) rows.

(** The schema in force for the store's collection: the one the
    collection was created with, or the one [_create_collection] will
    declare when the collection does not exist yet. *)
Definition active_schema (self : MilvusLTM) (st : Backend) : Schema :=
  match st !! storage_name self with
  | Some c => coll_schema c
  | None => ltm_schema self
  end.

(** The engine's state with the rows of the store's collection
    replaced (the collection is created if it does not exist). *)
Definition with_rows (self : MilvusLTM) (rows : list Row) (st : Backend)
    : Backend :=
  <[storage_name self := {| coll_schema := active_schema self st;
                            coll_rows := rows |}]> st.

(** The calls a client can make, and the state a sequence of calls
    leaves (results and exceptions are dropped, the state is kept). *)
Inductive Call : Type :=
  | CSetItem (key value : PyVal)
  | CGetItem (key : PyVal)
  | CDelItem (key : PyVal)
  | CContains (key : PyVal)
  | CLen
  | CKeys (limit : option Z)
  | CValues
  | CItems
  | CGet (key : PyVal) (default : option PyVal)
  | CClear
  | CPop (key : PyVal) (default : option PyVal)
  | CUpdate (other : list (PyVal * PyVal))
  | CGetByVector (embedding : list float) (top_k : option Z)
                 (threshold : option float).

(** The state one call leaves. *)
Definition exec `{PyRuntime} `{VectorIndex}
    (self : MilvusLTM) (c : Call) (st : Backend) : Backend :=
  match c with
  | CSetItem key value => (__setitem__ self key value st).2
  | CGetItem key => (__getitem__ self key st).2
  | CDelItem key => (__delitem__ self key st).2
  | CContains key => (__contains__ self key st).2
  | CLen => (__len__ self st).2
  | CKeys limit => (keys self limit st).2
  | CValues => (values self st).2
  | CItems => (items self st).2
  | CGet key default => (get self key default st).2
  | CClear => (clear self st).2
  | CPop key default => (pop self key default st).2
  | CUpdate other => (update self other st).2
  | CGetByVector embedding top_k threshold =>
      (get_by_vector self embedding top_k threshold st).2
  end.

(** The state a sequence of calls leaves, first call first. *)
Definition run `{PyRuntime} `{VectorIndex}
    (self : MilvusLTM) (calls : list Call) (st : Backend) : Backend :=
  foldl (fun st c => exec self c st) st calls.

(** Every stored value of the store's collection decodes. *)
Definition decodable `{PyRuntime} (name : string) (st : Backend) : Prop :=
  Forall (fun r => exists v, loads_b64 (row_value r) = Ok v) (rows_of name st).

(** A stored value holds a payload: it is the Base64 text of the
    pickled payload, as [__setitem__] builds it. *)
Definition holds `{PyRuntime} (payload : PyVal) (value_base64 : string)
    : Prop :=
  exists value_bytes,
    pickle_dumps payload = Some value_bytes
    /\ value_base64 = b64encode value_bytes.

(** Every stored value of the collection was built by [__setitem__]. *)
Definition written `{PyRuntime} (name : string) (st : Backend) : Prop :=
  Forall (fun r => exists payload, holds payload (row_value r))
         (rows_of name st).

(** A record of valid shape for a schema: the payload can be pickled,
    the embedding is not [None] and is a vector of the schema's
    dimension, and, on an engine that enforces them, key and encoded
    payload are within the declared lengths. *)
Definition valid_shape `{PyRuntime} `{VectorIndex}
    (s : Schema) (key_str : string) (payload embedding : PyVal) : Prop :=
  exists value_bytes vector,
    pickle_dumps payload = Some value_bytes
    /\ is_None embedding = false
    /\ read_vector embedding = Some vector
    /\ Z.of_nat (length vector) = vector_dim s
    /\ (enforces_lengths = true ->
        Z.of_nat (String.length key_str) <= key_max_length s
        /\ Z.of_nat (String.length (b64encode value_bytes))
           <= value_max_length s).

(** A match as [get_by_vector] returns it. *)
Definition decoded_hit `{PyRuntime} (h : Hit) : option (string * PyVal * float) :=
  match loads_b64 (hit_value h) with
  | Ok value => Some (hit_key h, value, hit_distance h)
  | Raise _ => None
  end.

(** ** A reference runtime

    One runtime that satisfies the laws of [PyRuntime], used to run the
    model on concrete inputs: [str] of strings, [None], booleans and
    integers; a tagged encoding standing for pickle, defined on [None],
    booleans and strings; standard Base64 with strict decoding; and the
    cosine of two vectors for the index. *)

(** [str] of strings, [None], booleans and integers; other objects are
    not modelled and get a placeholder. *)
Definition ref_str (v : PyVal) : string :=
  match v with
  | PyStr s => s
  | PyNone => "None"
  | PyBool true => "True"
  | PyBool false => "False"
  | PyInt z => pretty z
  | _ => "<object>"
  end.

(** A tagged byte encoding standing for pickle; objects outside its
    domain cannot be pickled. *)
Definition ref_dumps (v : PyVal) : option (list byte) :=
  match v with
  | PyNone => Some [x4e]
  | PyBool true => Some [x88]
  | PyBool false => Some [x89]
  | PyStr s => Some (x58 :: list_byte_of_string s)
  | _ => None
  end.

(** The decoder of [ref_dumps]. *)
Definition ref_loads (bs : list byte) : option PyVal :=
  match bs with
  | [x4e] => Some PyNone
  | [x88] => Some (PyBool true)
  | [x89] => Some (PyBool false)
  | x58 :: rest => Some (PyStr (string_of_list_byte rest))
  | _ => None
  end.

(** The standard Base64 alphabet. *)
Definition b64_alphabet : list ascii :=
  list_ascii_of_string
    "ABCDEFGHIJKLMNOPQRSTUVWXYZabcdefghijklmnopqrstuvwxyz0123456789+/".

(** The character of a 6-bit group. *)
Definition b64_char (n : N) : ascii :=
  nth (N.to_nat n) b64_alphabet "="%char.

(** The position of a character in a list, counted from [i]. *)
Fixpoint index_of (c : ascii) (l : list ascii) (i : N) : option N :=
  match l with
  | [] => None
  | x :: l' => if Ascii.eqb c x then Some i else index_of c l' (N.succ i)
  end.

(** The 6-bit group of a character of the alphabet. *)
Definition b64_index (c : ascii) : option N := index_of c b64_alphabet 0%N.

(** Base64 encoding: three bytes give four characters, the last group is
    padded with [=]. *)
Fixpoint ref_b64encode (bs : list byte) : string :=
  match bs with
  | [] => EmptyString
  | [a] =>
      let a := Byte.to_N a in
      String (b64_char (a / 4)%N)
        (String (b64_char (a mod 4 * 16)%N) "==")
  | [a; b] =>
      let a := Byte.to_N a in
      let b := Byte.to_N b in
      String (b64_char (a / 4)%N)
        (String (b64_char (a mod 4 * 16 + b / 16)%N)
           (String (b64_char (b mod 16 * 4)%N) "="))
  | a :: b :: c :: rest =>
      let a := Byte.to_N a in
      let b := Byte.to_N b in
      let c := Byte.to_N c in
      String (b64_char (a / 4)%N)
        (String (b64_char (a mod 4 * 16 + b / 16)%N)
           (String (b64_char (b mod 16 * 4 + c / 64)%N)
              (String (b64_char (c mod 64)%N) (ref_b64encode rest))))
  end.

(** The padding character. *)
Definition is_pad (c : ascii) : bool := Ascii.eqb c "="%char.

(** Strict decoding: groups of four characters, padding only at the end. *)
Fixpoint ref_b64decode (s : string) : option (list byte) :=
  match s with
  | EmptyString => Some []
  | String c1 (String c2 (String c3 (String c4 rest))) =>
      match b64_index c1, b64_index c2 with
      | Some s1, Some s2 =>
          match Byte.of_N (s1 * 4 + s2 / 16)%N with
          | None => None
          | Some a =>
              if is_pad c4 then
                match rest with
                | EmptyString =>
                    if is_pad c3 then Some [a]
                    else
                      match b64_index c3 with
                      | Some s3 =>
                          match Byte.of_N (s2 mod 16 * 16 + s3 / 4)%N with
                          | Some b => Some [a; b]
                          | None => None
                          end
                      | None => None
                      end
                | _ => None
                end
              else
                match b64_index c3, b64_index c4 with
                | Some s3, Some s4 =>
                    match Byte.of_N (s2 mod 16 * 16 + s3 / 4)%N,
                          Byte.of_N (s3 mod 4 * 64 + s4)%N,
                          ref_b64decode rest with
                    | Some b, Some c, Some bs => Some (a :: b :: c :: bs)
                    | _, _, _ => None
                    end
                | _, _ => None
                end
          end
      | _, _ => None
      end
  | _ => None
  end.

(** The dot product and the cosine of two vectors, in binary64. *)
Definition dot (a b : list float) : float :=
  foldl (fun acc xy => (acc + xy.1 * xy.2)%float) 0%float (zip a b).

(** [cosine a b = a.b / (|a| |b|)]. *)
Definition cosine (a b : list float) : float :=
  (dot a b / (sqrt (dot a a) * sqrt (dot b b)))%float.

(** ** Filter expressions *)

Lemma strip_prefix_app p s : strip_prefix p (p +:+ s) = Some s.
Proof.
  induction p as [|a p IH]; simpl; [done|].
  by rewrite Ascii.eqb_refl.
Qed.

Lemma strip_closing_quote_app lit :
  strip_closing_quote (lit +:+ dquote) = Some lit.
Proof.
  induction lit as [|c lit IH]; simpl; [done|].
  rewrite IH. simpl.
  destruct lit; simpl; done.
Qed.

Lemma parse_key_filter key_str :
  parse_filter (key_filter key_str) = Some (compare_key FKeyEq key_str).
Proof.
  unfold parse_filter, key_filter.
  change (("key == " +:+ dquote +:+ key_str +:+ dquote)%string)
    with (("key == " +:+ dquote) +:+ (key_str +:+ dquote))%string.
  rewrite strip_prefix_app, strip_closing_quote_app. done.
Qed.

Lemma parse_nonempty_key_filter :
  parse_filter nonempty_key_filter = Some (FKeyNe EmptyString).
Proof. reflexivity. Qed.

Lemma compare_key_plain cmp key_str :
  plain key_str = true -> compare_key cmp key_str = cmp key_str.
Proof. unfold compare_key. by intros ->. Qed.

(** The filter text of a key is not a plain string: it holds quotes. *)
Lemma key_filter_not_plain key_str : plain (key_filter key_str) = false.
Proof. reflexivity. Qed.

Lemma plain_not_key_filter key_str key_str' :
  plain key_str' = true -> key_str' <> key_filter key_str.
Proof. intros Hp ->. by rewrite key_filter_not_plain in Hp. Qed.

Lemma matches_eq key_str r :
  matches (FKeyEq key_str) r = true <-> row_key r = key_str.
Proof. unfold matches. apply String.eqb_eq. Qed.

Lemma matches_ne lit r :
  matches (FKeyNe lit) r = true <-> row_key r <> lit.
Proof.
  unfold matches. rewrite negb_true_iff. split.
  - intros Hf He. apply String.eqb_eq in He. congruence.
  - intros Hn. destruct (String.eqb_spec (row_key r) lit); done.
Qed.
(** ** The state of the store's collection *)

Lemma collection_eta c :
  {| coll_schema := coll_schema c; coll_rows := coll_rows c |} = c.
Proof. by destruct c. Qed.

Lemma rows_of_with_rows self rows st :
  rows_of (storage_name self) (with_rows self rows st) = rows.
Proof. unfold rows_of, with_rows. by rewrite lookup_insert_eq. Qed.

Lemma exists_with_rows self rows st :
  exists_collection (storage_name self) (with_rows self rows st) = true.
Proof. unfold exists_collection, with_rows. by rewrite lookup_insert_eq. Qed.

Lemma active_schema_with_rows self rows st :
  active_schema self (with_rows self rows st) = active_schema self st.
Proof. unfold active_schema at 1, with_rows. by rewrite lookup_insert_eq. Qed.

Lemma with_rows_with_rows self rows1 rows2 st :
  with_rows self rows2 (with_rows self rows1 st) = with_rows self rows2 st.
Proof.
  unfold with_rows at 1. rewrite active_schema_with_rows.
  unfold with_rows. by rewrite insert_insert_eq.
Qed.

Lemma with_rows_id self st :
  exists_collection (storage_name self) st = true ->
  with_rows self (rows_of (storage_name self) st) st = st.
Proof.
  unfold exists_collection, with_rows, active_schema, rows_of.
  destruct (st !! storage_name self) as [c|] eqn:E; [|done].
  intros _. rewrite collection_eta. by apply insert_id.
Qed.

Lemma live_records_with_rows self key_str rows st :
  live_records (storage_name self) key_str (with_rows self rows st)
  = filter (fun r => matches (FKeyEq key_str) r = true) rows.
Proof. unfold live_records. by rewrite rows_of_with_rows. Qed.


Lemma mapM_cons_Some {A B} (f : A -> option B) x y l k :
  f x = Some y -> mapM f l = Some k -> mapM f (x :: l) = Some (y :: k).
Proof. intros Hx Hl. simpl. rewrite Hx. simpl. rewrite Hl. done. Qed.






Lemma found_with_rows self key_str rows st :
  found (storage_name self) key_str (with_rows self rows st)
  = filter (fun r => matches (compare_key FKeyEq key_str) r = true) rows.
Proof. unfold found. by rewrite rows_of_with_rows. Qed.

Lemma found_plain name key_str st :
  plain key_str = true -> found name key_str st = live_records name key_str st.
Proof. intros Hp. unfold found. by rewrite compare_key_plain. Qed.

Lemma filter_nothing (rows : list Row) :
  filter (fun r => matches FNone r = true) rows = [].
Proof.
  induction rows as [|r rows IH]; [done|].
  by rewrite filter_cons_False.
Qed.


Lemma found_live name key_str st r :
  r ∈ found name key_str st -> r ∈ live_records name key_str st.
Proof.
  unfold found, live_records, compare_key. destruct (plain key_str); [done|].
  by rewrite filter_nothing, elem_of_nil.
Qed.

(** Removing the filter text of a key leaves the records of every key
    but that text. *)
Lemma filter_without_ids key_str key_str' (rows : list Row) :
  key_str' <> key_filter key_str ->
  filter (fun r => matches (FKeyEq key_str') r = true)
         (without_ids [key_filter key_str] rows)
  = filter (fun r => matches (FKeyEq key_str') r = true) rows.
Proof.
  intros Hne. unfold without_ids. induction rows as [|r rows IH]; [done|].
  rewrite !filter_cons.
  destruct (decide (row_key r ∉ [key_filter key_str])) as [Hin|Hin].
  - rewrite filter_cons. by rewrite IH.
  - rewrite IH. rewrite decide_False; [done|].
    intros Hm. apply matches_eq in Hm. apply Hin.
    rewrite list_elem_of_singleton. congruence.
Qed.

Lemma elem_of_without_ids ids (rows : list Row) r :
  r ∈ without_ids ids rows -> r ∈ rows.
Proof. unfold without_ids. by intros [_ ?]%list_elem_of_filter. Qed.
(** ** What each method does *)

Section StoreFacts.
Context `{PyRuntime} `{VectorIndex}.
Implicit Types (self : MilvusLTM) (st : Backend) (key value : PyVal).

Lemma create_collection_run self st :
  _create_collection self st
  = (Ok tt, with_rows self (rows_of (storage_name self) st) st).
Proof.
  unfold _create_collection, mbind, M_bind, has_collection.
  destruct (exists_collection (storage_name self) st) eqn:E; simpl.
  - by rewrite with_rows_id.
  - unfold create_collection, with_rows, active_schema, rows_of.
    unfold exists_collection in E.
    by destruct (st !! storage_name self).
Qed.

Lemma query_run name expr f st :
  parse_filter expr = Some f ->
  exists_collection name st = true ->
  query name expr None st
  = (Ok (filter (fun r => matches f r = true) (rows_of name st)), st).
Proof.
  intros Hp. unfold query, exists_collection, rows_of. rewrite Hp.
  by destruct (st !! name).
Qed.

(** The engine refuses the query of a collection that does not exist. *)
Lemma query_missing name expr limit st :
  exists_collection name st = false ->
  query name expr limit st = (Raise MilvusException, st).
Proof.
  unfold query, exists_collection.
  destruct (st !! name); [done|]. by destruct (parse_filter expr).
Qed.

Lemma query_frame name expr limit st : (query name expr limit st).2 = st.
Proof.
  unfold query. destruct (parse_filter expr); [|done].
  destruct (st !! name); [|done]. by destruct (apply_limit _ _).
Qed.

Lemma getitem_run self key st :
  exists_collection (storage_name self) st = true ->
  __getitem__ self key st
  = (match found (storage_name self) (py_str key) st with
     | r :: _ => loads_b64 (row_value r)
     | [] => Raise (KeyError (not_found_msg (py_str key)))
     end, st).
Proof.
  intros He. unfold __getitem__, mbind, M_bind.
  rewrite (query_run _ _ _ _ (parse_key_filter _) He).
  unfold found. by destruct (filter _ _).
Qed.

Lemma getitem_missing self key st :
  exists_collection (storage_name self) st = false ->
  __getitem__ self key st = (Raise MilvusException, st).
Proof.
  intros He. unfold __getitem__, mbind, M_bind. by rewrite query_missing.
Qed.

Lemma contains_run self key st :
  exists_collection (storage_name self) st = true ->
  __contains__ self key st
  = (Ok (bool_decide
           (0 < length (found (storage_name self) (py_str key) st))%nat),
     st).
Proof.
  intros He. unfold __contains__, mbind, M_bind.
  by rewrite (query_run _ _ _ _ (parse_key_filter _) He).
Qed.

Lemma contains_missing self key st :
  exists_collection (storage_name self) st = false ->
  __contains__ self key st = (Raise MilvusException, st).
Proof.
  intros He. unfold __contains__, mbind, M_bind. by rewrite query_missing.
Qed.

Lemma delete_run self expr f st :
  parse_filter expr = Some f ->
  exists_collection (storage_name self) st = true ->
  delete (storage_name self) expr st
  = (Ok tt,
     with_rows self
       (filter (fun r => matches f r <> true) (rows_of (storage_name self) st))
       st).
Proof.
  intros Hp. unfold delete, exists_collection, with_rows, active_schema, rows_of.
  rewrite Hp. by destruct (st !! storage_name self).
Qed.

Lemma delete_missing name expr st :
  exists_collection name st = false ->
  delete name expr st = (Raise MilvusException, st).
Proof.
  unfold delete, exists_collection.
  destruct (st !! name); [done|]. by destruct (parse_filter expr).
Qed.

Lemma delete_ids_run self ids st :
  exists_collection (storage_name self) st = true ->
  delete_ids (storage_name self) ids st
  = (Ok tt, with_rows self (without_ids ids (rows_of (storage_name self) st)) st).
Proof.
  unfold delete_ids, exists_collection, with_rows, active_schema, rows_of,
    without_ids.
  by destruct (st !! storage_name self).
Qed.

(** [__delitem__] of a key that is found removes the rows whose key is
    the filter text of the key. *)
Lemma delitem_run self key st :
  exists_collection (storage_name self) st = true ->
  __delitem__ self key st
  = match found (storage_name self) (py_str key) st with
    | [] => (Raise (KeyError (not_found_msg (py_str key))), st)
    | _ :: _ =>
        (Ok tt,
         with_rows self
           (without_ids [key_filter (py_str key)]
              (rows_of (storage_name self) st)) st)
    end.
Proof.
  intros He. unfold __delitem__, mbind, M_bind.
  rewrite contains_run, py_str_str by done.
  destruct (found _ _ _) as [|r rs] eqn:E; simpl; [done|].
  by rewrite delete_ids_run.
Qed.

Lemma delitem_missing self key st :
  exists_collection (storage_name self) st = false ->
  __delitem__ self key st = (Raise MilvusException, st).
Proof.
  intros He. unfold __delitem__, mbind, M_bind. by rewrite contains_missing.
Qed.

Lemma insert_run self e rows st :
  insert (storage_name self) [e] (with_rows self rows st)
  = match fits (active_schema self st) e with
    | None => (Raise MilvusException, with_rows self rows st)
    | Some row => (Ok tt, with_rows self (rows ++ [row]) st)
    end.
Proof.
  unfold insert. unfold with_rows at 1. rewrite lookup_insert_eq.
  cbn [coll_schema coll_rows mapM]. unfold mbind, option_bind, mret, option_ret.
  destruct (fits (active_schema self st) e) as [row|]; [|done].
  fold (with_rows self rows st).
  change (<[storage_name self:={| coll_schema := active_schema self st;
             coll_rows := rows ++ [row] |}]> (with_rows self rows st))
    with (<[storage_name self:={| coll_schema := active_schema self st;
             coll_rows := rows ++ [row] |}]>
            (<[storage_name self:={| coll_schema := active_schema self st;
             coll_rows := rows |}]> st)).
  by rewrite insert_insert_eq.
Qed.

(** The rows a [set] of a key leaves before its insert: all of them
    when the key is not found, and otherwise what the [delete] call of
    [__delitem__] leaves. *)
Lemma setitem_run self key value st :
  __setitem__ self key value st
  = let name := storage_name self in
    let created := with_rows self (rows_of name st) st in
    match value_and_embedding value with
    | None => (Raise (ValueError bad_value_msg), created)
    | Some (actual_value, embedding) =>
        match pickle_dumps actual_value with
        | None => (Raise PicklingError, created)
        | Some value_bytes =>
            if is_None embedding
            then (Raise (ValueError no_embedding_msg), created)
            else
              let kept :=
                match found name (py_str key) st with
                | [] => rows_of name st
                | _ :: _ =>
                    without_ids [key_filter (py_str key)] (rows_of name st)
                end in
              match fits (active_schema self st)
                      {| ent_key := py_str key;
                         ent_value := b64encode value_bytes;
                         ent_embedding := embedding |} with
              | None => (Raise MilvusException, with_rows self kept st)
              | Some row => (Ok tt, with_rows self (kept ++ [row]) st)
              end
        end
    end.
Proof.
  unfold __setitem__. unfold mbind at 1. unfold M_bind at 1.
  rewrite create_collection_run. cbv zeta.
  destruct (value_and_embedding value) as [[actual_value embedding]|]; [|done].
  destruct (pickle_dumps actual_value) as [value_bytes|]; [|done].
  destruct (is_None embedding); [done|].
  unfold mbind at 1. unfold M_bind at 1.
  rewrite contains_run, py_str_str, found_with_rows by apply exists_with_rows.
  fold (found (storage_name self) (py_str key) st).
  unfold mbind, M_bind.
  destruct (found (storage_name self) (py_str key) st) as [|r rs] eqn:E.
  - simpl. unfold mret, M_ret. by rewrite insert_run.
  - simpl. rewrite delitem_run, py_str_str, found_with_rows
      by apply exists_with_rows.
    fold (found (storage_name self) (py_str key) st). rewrite E.
    rewrite rows_of_with_rows, with_rows_with_rows, insert_run. done.
Qed.

(** Reads leave the engine as it is. *)
Lemma getitem_frame self key st : (__getitem__ self key st).2 = st.
Proof.
  unfold __getitem__, mbind, M_bind.
  pose proof (query_frame (storage_name self) (key_filter (py_str key)) None st)
    as Hq.
  destruct (query _ _ _ st) as [[[|r res]|e] st']; simpl in Hq; by subst st'.
Qed.

Lemma contains_frame self key st : (__contains__ self key st).2 = st.
Proof.
  unfold __contains__, mbind, M_bind.
  pose proof (query_frame (storage_name self) (key_filter (py_str key)) None st)
    as Hq.
  destruct (query _ _ _ st) as [[res|e] st']; simpl in Hq; by subst st'.
Qed.

Lemma len_run self st :
  exists_collection (storage_name self) st = true ->
  __len__ self st
  = (Ok (length (filter (fun r => matches (FKeyNe EmptyString) r = true)
                        (rows_of (storage_name self) st))), st).
Proof.
  intros He. unfold __len__, mbind, M_bind.
  by rewrite (query_run _ _ _ _ parse_nonempty_key_filter He).
Qed.

Lemma len_missing self st :
  exists_collection (storage_name self) st = false ->
  __len__ self st = (Raise MilvusException, st).
Proof. intros He. unfold __len__, mbind, M_bind. by rewrite query_missing. Qed.

Lemma len_frame self st : (__len__ self st).2 = st.
Proof.
  destruct (exists_collection (storage_name self) st) eqn:E.
  - by rewrite len_run.
  - by rewrite len_missing.
Qed.

Lemma keys_frame self limit st : (keys self limit st).2 = st.
Proof.
  unfold keys, mbind, M_bind.
  pose proof (query_frame (storage_name self) EmptyString
                (Some (default 10 limit)) st) as Hq.
  destruct (query _ _ _ st) as [[res|e] st']; simpl in Hq; by subst st'.
Qed.

(** [values] stops at its first statement: the client has no [load]. *)
Lemma values_run self st : values self st = (Raise AttributeError, st).
Proof. reflexivity. Qed.

Lemma items_run self st :
  exists_collection (storage_name self) st = true ->
  items self st
  = (traverse
       (fun item =>
          match loads_b64 (row_value item) with
          | Raise e => Raise e
          | Ok value => Ok (row_key item, value)
          end)
       (filter (fun r => matches (FKeyNe EmptyString) r = true)
               (rows_of (storage_name self) st)), st).
Proof.
  intros He. unfold items, mbind, M_bind.
  by rewrite (query_run _ _ _ _ parse_nonempty_key_filter He).
Qed.

Lemma items_missing self st :
  exists_collection (storage_name self) st = false ->
  items self st = (Raise MilvusException, st).
Proof. intros He. unfold items, mbind, M_bind. by rewrite query_missing. Qed.

Lemma items_frame self st : (items self st).2 = st.
Proof.
  destruct (exists_collection (storage_name self) st) eqn:E.
  - by rewrite items_run.
  - by rewrite items_missing.
Qed.

(** [get] of a key that is found gives what decoding its first row
    gives; a failure of the decoding is not rendered as [KeyError] and
    passes the handler. *)

Lemma get_run self key default st :
  exists_collection (storage_name self) st = true ->
  get self key default st
  = (match found (storage_name self) (py_str key) st with
     | r :: _ => loads_b64 (row_value r)
     | [] => Ok (option.default PyNone default)
     end, st).
Proof.
  intros He. unfold get, except_KeyError. rewrite getitem_run by done.
  destruct (found _ _ _) as [|r rs]; [done|].
  unfold loads_b64.
  destruct (b64decode (row_value r)) as [bs|]; [|done].
  by destruct (pickle_loads bs).
Qed.

(** The handler of [get] catches [KeyError] only: the engine's refusal
    of a collection that does not exist passes through. *)
Lemma get_missing self key default st :
  exists_collection (storage_name self) st = false ->
  get self key default st = (Raise MilvusException, st).
Proof.
  intros He. unfold get, except_KeyError. by rewrite getitem_missing.
Qed.

Lemma get_frame self key default st : (get self key default st).2 = st.
Proof.
  destruct (exists_collection (storage_name self) st) eqn:E.
  - by rewrite get_run.
  - by rewrite get_missing.
Qed.

Lemma clear_run self st :
  exists_collection (storage_name self) st = true ->
  clear self st
  = (Ok tt,
     with_rows self
       (filter (fun r => matches (FKeyNe EmptyString) r <> true)
               (rows_of (storage_name self) st)) st).
Proof.
  intros He. unfold clear.
  by rewrite (delete_run _ _ _ _ parse_nonempty_key_filter He).
Qed.

Lemma clear_missing self st :
  exists_collection (storage_name self) st = false ->
  clear self st = (Raise MilvusException, st).
Proof. intros He. unfold clear. by rewrite delete_missing. Qed.

Lemma pop_run self key default st :
  exists_collection (storage_name self) st = true ->
  pop self key default st
  = match found (storage_name self) (py_str key) st with
    | [] =>
        (if negb (is_None (option.default PyNone default))
         then Ok (option.default PyNone default)
         else Raise (KeyError (not_found_msg (py_str key))), st)
    | r :: _ =>
        match loads_b64 (row_value r) with
        | Ok v =>
            (Ok v,
             with_rows self
               (without_ids [key_filter (py_str key)]
                  (rows_of (storage_name self) st)) st)
        | Raise e => (Raise e, st)
        end
    end.
Proof.
  intros He. unfold pop, except_KeyError, mbind, M_bind.
  rewrite getitem_run by done.
  destruct (found _ _ _) as [|r rs] eqn:E.
  - by destruct (negb _).
  - unfold loads_b64, lift.
    destruct (b64decode (row_value r)) as [bs|]; [|done].
    destruct (pickle_loads bs) as [v|]; [|done].
    by rewrite delitem_run, E.
Qed.

Lemma pop_missing self key default st :
  exists_collection (storage_name self) st = false ->
  pop self key default st = (Raise MilvusException, st).
Proof.
  intros He. unfold pop, except_KeyError, mbind, M_bind.
  by rewrite getitem_missing.
Qed.

Lemma search_frame name data limit st : (search name data limit st).2 = st.
Proof.
  unfold search. destruct (st !! name); [|done]. by destruct (forallb _ _).
Qed.

Lemma get_by_vector_frame self embedding top_k threshold st :
  (get_by_vector self embedding top_k threshold st).2 = st.
Proof.
  unfold get_by_vector, mbind, M_bind.
  pose proof (search_frame (storage_name self) [embedding]
                (default 10 top_k) st) as Hs.
  destruct (search _ _ _ st) as [[results|e] st']; simpl in Hs; subst st'.
  - by destruct results.
  - done.
Qed.

Lemma loads_b64_b64encode v bs :
  pickle_dumps v = Some bs -> loads_b64 (b64encode bs) = Ok v.
Proof.
  intros Hd. unfold loads_b64.
  by rewrite b64decode_encode, (pickle_loads_dumps _ _ Hd).
Qed.

(** A stored value that holds a payload decodes to it. *)
Lemma holds_loads_b64 payload text :
  holds payload text -> loads_b64 text = Ok payload.
Proof. intros (bs & Hd & ->). by apply loads_b64_b64encode. Qed.

Lemma fits_Some s e row :
  fits s e = Some row ->
  row_key row = ent_key e /\ row_value row = ent_value e
  /\ read_vector (ent_embedding e) = Some (row_embedding row).
Proof.
  unfold fits. destruct (read_vector (ent_embedding e)) as [v|]; [|done].
  case_bool_decide; [|done]. by intros [= <-].
Qed.

(** *** Invariants of the rows

    The methods keep any property [P] of the rows that holds of every
    row a [set] inserts: they only remove rows, or append the row that
    holds the payload. *)
Section Invariant.
Variable P : Row -> Prop.
Hypothesis P_written :
  forall row payload, holds payload (row_value row) -> P row.

Lemma invariant_filter self (Q : Row -> Prop) `{!forall r, Decision (Q r)}
    rows st :
  Forall P rows ->
  Forall P (rows_of (storage_name self) (with_rows self (filter Q rows) st)).
Proof.
  intros HP. rewrite rows_of_with_rows.
  apply Forall_forall. intros r Hin.
  apply list_elem_of_filter in Hin as [_ Hin].
  rewrite Forall_forall in HP. by apply HP.
Qed.

Lemma setitem_invariant self key value st :
  Forall P (rows_of (storage_name self) st) ->
  Forall P (rows_of (storage_name self) (__setitem__ self key value st).2).
Proof.
  intros HP. rewrite setitem_run. cbv zeta.
  assert (Hkept : Forall P
    match found (storage_name self) (py_str key) st with
    | [] => rows_of (storage_name self) st
    | _ :: _ => without_ids [key_filter (py_str key)]
                  (rows_of (storage_name self) st)
    end).
  { destruct (found _ _ _) as [|r0 rs]; [done|].
    apply Forall_forall. intros r Hin. apply elem_of_without_ids in Hin.
    rewrite Forall_forall in HP. by apply HP. }
  destruct (value_and_embedding value) as [[actual_value embedding]|];
    [|cbn [snd]; by rewrite rows_of_with_rows].
  destruct (pickle_dumps actual_value) as [value_bytes|] eqn:Hd;
    [|cbn [snd]; by rewrite rows_of_with_rows].
  destruct (is_None embedding); [cbn [snd]; by rewrite rows_of_with_rows|].
  destruct (fits _ _) as [row|] eqn:Hf; cbn [snd]; rewrite rows_of_with_rows;
    [|done].
  apply fits_Some in Hf as (Hk & Hv & _). simpl in Hk, Hv.
  apply Forall_app. split; [done|].
  apply Forall_singleton, (P_written row actual_value).
  exists value_bytes. by rewrite Hv.
Qed.

Lemma delitem_invariant self key st :
  Forall P (rows_of (storage_name self) st) ->
  Forall P (rows_of (storage_name self) (__delitem__ self key st).2).
Proof.
  intros HP. destruct (exists_collection (storage_name self) st) eqn:E.
  - rewrite delitem_run by done.
    destruct (found _ _ _); [done|]. cbn [snd]. by apply invariant_filter.
  - by rewrite delitem_missing.
Qed.

Lemma clear_invariant self st :
  Forall P (rows_of (storage_name self) st) ->
  Forall P (rows_of (storage_name self) (clear self st).2).
Proof.
  intros HP. destruct (exists_collection (storage_name self) st) eqn:E.
  - rewrite clear_run by done. cbn [snd]. by apply invariant_filter.
  - by rewrite clear_missing.
Qed.

Lemma pop_invariant self key default st :
  Forall P (rows_of (storage_name self) st) ->
  Forall P (rows_of (storage_name self) (pop self key default st).2).
Proof.
  intros HP. destruct (exists_collection (storage_name self) st) eqn:E.
  - rewrite pop_run by done.
    destruct (found _ _ _) as [|r0 rs]; [done|].
    destruct (loads_b64 (row_value r0)); [|done]. cbn [snd].
    by apply invariant_filter.
  - by rewrite pop_missing.
Qed.

Lemma update_invariant self other st :
  Forall P (rows_of (storage_name self) st) ->
  Forall P (rows_of (storage_name self) (update self other st).2).
Proof.
  revert st. induction other as [|[key value] rest IH]; intros st HP; [done|].
  simpl. unfold mbind, M_bind.
  pose proof (setitem_invariant self key value st HP) as Hset.
  destruct (__setitem__ self key value st) as [[[]|e] st']; simpl in Hset.
  - by apply IH.
  - done.
Qed.

Lemma exec_invariant self c st :
  Forall P (rows_of (storage_name self) st) ->
  Forall P (rows_of (storage_name self) (exec self c st)).
Proof.
  intros HP. destruct c; unfold exec.
  - by apply setitem_invariant.
  - by rewrite getitem_frame.
  - by apply delitem_invariant.
  - by rewrite contains_frame.
  - by rewrite len_frame.
  - by rewrite keys_frame.
  - by rewrite values_run.
  - by rewrite items_frame.
  - by rewrite get_frame.
  - by apply clear_invariant.
  - by apply pop_invariant.
  - by apply update_invariant.
  - by rewrite get_by_vector_frame.
Qed.

Lemma run_invariant self calls st :
  Forall P (rows_of (storage_name self) st) ->
  Forall P (rows_of (storage_name self) (run self calls st)).
Proof.
  revert st. induction calls as [|c calls IH]; intros st HP; [done|].
  simpl. apply IH. by apply exec_invariant.
Qed.

End Invariant.

Lemma run_written self calls st :
  written (storage_name self) st ->
  written (storage_name self) (run self calls st).
Proof.
  apply (run_invariant (fun r => exists payload, holds payload (row_value r))).
  intros row payload Hh. by exists payload.
Qed.

Lemma run_decodable self calls st :
  decodable (storage_name self) st ->
  decodable (storage_name self) (run self calls st).
Proof.
  apply (run_invariant (fun r => exists v, loads_b64 (row_value r) = Ok v)).
  intros row payload Hh. exists payload. by apply holds_loads_b64.
Qed.

Lemma written_decodable name st : written name st -> decodable name st.
Proof.
  unfold written, decodable. intros Hw. eapply Forall_impl; [exact Hw|].
  intros r [payload Hh]. exists payload. by apply holds_loads_b64.
Qed.

Lemma empty_written name : written name ∅.
Proof. unfold written, rows_of. rewrite lookup_empty. apply Forall_nil_2. Qed.

Lemma empty_decodable name : decodable name ∅.
Proof. unfold decodable, rows_of. rewrite lookup_empty. apply Forall_nil_2. Qed.

Lemma valid_shape_fits s key_str payload embedding :
  valid_shape s key_str payload embedding ->
  exists value_bytes row,
    pickle_dumps payload = Some value_bytes
    /\ is_None embedding = false
    /\ fits s {| ent_key := key_str;
                 ent_value := b64encode value_bytes;
                 ent_embedding := embedding |} = Some row
    /\ row_key row = key_str
    /\ row_value row = b64encode value_bytes.
Proof.
  intros (value_bytes & vector & Hd & Hn & Hv & Hdim & Hlen).
  exists value_bytes,
    {| row_key := key_str; row_value := b64encode value_bytes;
       row_embedding := vector |}.
  split; [done|]. split; [done|].
  split; [|done].
  unfold fits. cbn [ent_embedding ent_key ent_value]. rewrite Hv.
  by rewrite bool_decide_eq_true_2.
Qed.

(** The first write of a key, of valid shape, succeeds: one row that
    holds the payload is appended. *)
Lemma setitem_ok self key value payload embedding st :
  value_and_embedding value = Some (payload, embedding) ->
  valid_shape (active_schema self st) (py_str key) payload embedding ->
  found (storage_name self) (py_str key) st = [] ->
  exists row,
    row_key row = py_str key
    /\ holds payload (row_value row)
    /\ __setitem__ self key value st
       = (Ok tt,
          with_rows self (rows_of (storage_name self) st ++ [row]) st).
Proof.
  intros Hve Hvalid Hfresh.
  apply valid_shape_fits in Hvalid as (bs & row & Hd & Hn & Hf & Hk & Hv).
  exists row. split; [done|]. split; [by exists bs|].
  rewrite setitem_run. cbv zeta. by rewrite Hve, Hd, Hn, Hf, Hfresh.
Qed.


Lemma elem_of_insert_hit h h' l : h' ∈ insert_hit h l -> h' = h \/ h' ∈ l.
Proof.
  induction l as [|x l IH]; simpl.
  - intros Hin. apply list_elem_of_singleton in Hin. by left.
  - destruct (PrimFloat.ltb _ _).
    + intros Hin. apply elem_of_cons in Hin as [->|Hin]; [by left|by right].
    + intros Hin. apply elem_of_cons in Hin as [->|Hin].
      * right. apply list_elem_of_here.
      * destruct (IH Hin) as [->|Hl]; [by left|].
        right. by apply list_elem_of_further.
Qed.

Lemma elem_of_rank h l : h ∈ rank l -> h ∈ l.
Proof.
  induction l as [|x l IH]; simpl; [done|].
  intros Hin. apply elem_of_insert_hit in Hin as [->|Hin].
  - apply list_elem_of_here.
  - apply list_elem_of_further. by apply IH.
Qed.

Lemma elem_of_candidates q limit rows h :
  h ∈ candidates q limit rows -> exists r, r ∈ rows /\ h = score q r.
Proof.
  unfold candidates. intros Hin.
  apply (subseteq_take _ _ _) in Hin.
  apply elem_of_rank, list_elem_of_fmap in Hin as (r & -> & Hin). eauto.
Qed.

Lemma candidates_nil q limit : candidates q limit [] = [].
Proof. unfold candidates. simpl. by rewrite take_nil. Qed.

Lemma search_run self q limit st :
  Z.of_nat (length q) = vector_dim (active_schema self st) ->
  search (storage_name self) [q] limit st
  = (Ok [candidates q limit (rows_of (storage_name self) st)], st).
Proof.
  unfold search, active_schema, rows_of. intros Hq.
  destruct (st !! storage_name self) as [c|].
  - simpl. rewrite Hq, Z.eqb_refl. done.
  - simpl. by rewrite candidates_nil.
Qed.

(** The loop of [get_by_vector] keeps, in order, the matches whose
    distance is at least the threshold. *)
Lemma keep_match_foldl threshold hits acc :
  Forall (fun h => exists v, loads_b64 (hit_value h) = Ok v) hits ->
  exists items,
    foldl (keep_match threshold) (Ok acc) hits = Ok (acc ++ items)
    /\ mapM decoded_hit
         (filter (fun h => PrimFloat.leb threshold (hit_distance h) = true) hits)
       = Some items.
Proof.
  revert acc. induction hits as [|h hits IH]; intros acc Hdec.
  - exists []. by rewrite app_nil_r.
  - apply Forall_cons in Hdec as [[v Hv] Hdec]. cbn [foldl].
    assert (keep_match threshold (Ok acc) h
            = if PrimFloat.leb threshold (hit_distance h)
              then Ok (acc ++ [(hit_key h, v, hit_distance h)])
              else Ok acc) as ->
      by (unfold keep_match; by rewrite Hv).
    rewrite filter_cons.
    destruct (PrimFloat.leb threshold (hit_distance h)) eqn:Hle.
    + destruct (IH (acc ++ [(hit_key h, v, hit_distance h)]) Hdec)
        as (items & Hfold & Hmap).
      exists ((hit_key h, v, hit_distance h) :: items).
      rewrite Hfold, <- app_assoc. split; [done|].
      rewrite decide_True by done.
      apply mapM_cons_Some; [|done]. unfold decoded_hit. by rewrite Hv.
    + destruct (IH acc Hdec) as (items & Hfold & Hmap).
      exists items. rewrite Hfold. split; [done|].
      rewrite decide_False by done. done.
Qed.

Lemma candidates_decodable self q limit st :
  decodable (storage_name self) st ->
  Forall (fun h => exists v, loads_b64 (hit_value h) = Ok v)
         (candidates q limit (rows_of (storage_name self) st)).
Proof.
  intros Hdec. apply Forall_forall. intros h Hin.
  apply elem_of_candidates in Hin as (r & Hr & ->).
  unfold decodable in Hdec. rewrite Forall_forall in Hdec. by apply Hdec.
Qed.

Lemma get_by_vector_run self embedding top_k threshold st :
  decodable (storage_name self) st ->
  Z.of_nat (length embedding) = vector_dim (active_schema self st) ->
  exists items,
    get_by_vector self embedding top_k threshold st = (Ok items, st)
    /\ mapM decoded_hit
         (filter (fun h => PrimFloat.leb (default 0%float threshold)
                             (hit_distance h) = true)
                 (candidates embedding (default 10 top_k)
                             (rows_of (storage_name self) st)))
       = Some items.
Proof.
  intros Hdec Hq. unfold get_by_vector, mbind, M_bind.
  rewrite (search_run self embedding _ st Hq).
  destruct (keep_match_foldl (default 0%float threshold) _ []
              (candidates_decodable self embedding (default 10 top_k) st Hdec))
    as (items & Hfold & Hmap).
  exists items. unfold lift. by rewrite Hfold.
Qed.

(** A match as [get_by_vector] returns it for a stored value that holds
    the payload. *)
Lemma keep_match_foldl_holds threshold hits acc :
  Forall (fun h => exists payload, holds payload (hit_value h)) hits ->
  exists items,
    foldl (keep_match threshold) (Ok acc) hits = Ok (acc ++ items)
    /\ Forall2
         (fun h item =>
            item.1.1 = hit_key h
            /\ holds item.1.2 (hit_value h)
            /\ item.2 = hit_distance h)
         (filter (fun h => PrimFloat.leb threshold (hit_distance h) = true) hits)
         items.
Proof.
  revert acc. induction hits as [|h hits IH]; intros acc Hw.
  - exists []. rewrite app_nil_r. split; [done|]. apply Forall2_nil_2.
  - apply Forall_cons in Hw as [[v Hv] Hw]. cbn [foldl].
    assert (keep_match threshold (Ok acc) h
            = if PrimFloat.leb threshold (hit_distance h)
              then Ok (acc ++ [(hit_key h, v, hit_distance h)])
              else Ok acc) as ->
      by (unfold keep_match; by rewrite (holds_loads_b64 _ _ Hv)).
    rewrite filter_cons.
    destruct (PrimFloat.leb threshold (hit_distance h)) eqn:Hle.
    + destruct (IH (acc ++ [(hit_key h, v, hit_distance h)]) Hw)
        as (items & Hfold & Hall).
      exists ((hit_key h, v, hit_distance h) :: items).
      rewrite Hfold, <- app_assoc. split; [done|].
      rewrite decide_True by done. by apply Forall2_cons.
    + destruct (IH acc Hw) as (items & Hfold & Hall).
      exists items. rewrite Hfold. split; [done|].
      rewrite decide_False by done. done.
Qed.

Lemma candidates_written self q limit st :
  written (storage_name self) st ->
  Forall (fun h => exists payload, holds payload (hit_value h))
         (candidates q limit (rows_of (storage_name self) st)).
Proof.
  intros Hw. apply Forall_forall. intros h Hin.
  apply elem_of_candidates in Hin as (r & Hr & ->).
  unfold written in Hw. rewrite Forall_forall in Hw. by apply Hw.
Qed.

End StoreFacts.

(** ** The claims *)

Section Claims.
Context `{PyRuntime} `{VectorIndex}.
Implicit Types (self : MilvusLTM) (st : Backend) (key value : PyVal).



(** C4 (as amended). The collection is created by the first [set]
    call, whether the call succeeds or is rejected: the collection
    exists after every [set].  No read creates it: [get], the
    default-taking [get], [contains], [len], [keys], [values], [items]
    and [get_by_vector] leave the engine as it is; [delete], [clear] and
    [pop] do not create it either. *)
Theorem collection_created_by_every_set self key value default limit
    embedding top_k threshold st :
  exists_collection (storage_name self) (__setitem__ self key value st).2 = true
  /\ (__getitem__ self key st).2 = st
  /\ (get self key default st).2 = st
  /\ (__contains__ self key st).2 = st
  /\ (__len__ self st).2 = st
  /\ (keys self limit st).2 = st
  /\ (values self st).2 = st
  /\ (items self st).2 = st
  /\ (get_by_vector self embedding top_k threshold st).2 = st
  /\ exists_collection (storage_name self) (__delitem__ self key st).2
     = exists_collection (storage_name self) st
  /\ exists_collection (storage_name self) (clear self st).2
     = exists_collection (storage_name self) st
  /\ exists_collection (storage_name self) (pop self key default st).2
     = exists_collection (storage_name self) st.
Proof.
  split.
  { rewrite setitem_run. cbv zeta.
    destruct (value_and_embedding value) as [[actual_value emb]|];
      [|by apply exists_with_rows].
    destruct (pickle_dumps actual_value); [|by apply exists_with_rows].
    destruct (is_None emb); [by apply exists_with_rows|].
    destruct (fits _ _); by apply exists_with_rows. }
  split; [by apply getitem_frame|].
  split; [by apply get_frame|].
  split; [by apply contains_frame|].
  split; [by apply len_frame|].
  split; [by apply keys_frame|].
  split; [by rewrite values_run|].
  split; [by apply items_frame|].
  split; [by apply get_by_vector_frame|].
  destruct (exists_collection (storage_name self) st) eqn:E.
  - split; [|split].
    + rewrite delitem_run by done.
      destruct (found _ _ _); [done|]. by apply exists_with_rows.
    + rewrite clear_run by done. by apply exists_with_rows.
    + rewrite pop_run by done.
      destruct (found _ _ _) as [|r rs]; [done|].
      destruct (loads_b64 (row_value r)); [|done]. by apply exists_with_rows.
  - by rewrite delitem_missing, clear_missing, pop_missing.
Qed.

(** C5 (as amended). Without an explicit threshold the threshold is
    [0.0]: [get_by_vector] returns, in the engine's order, exactly the
    candidates whose score is at least [0.0]; a candidate with a
    negative score is dropped. *)
Theorem get_by_vector_default_threshold self embedding top_k st :
  decodable (storage_name self) st ->
  Z.of_nat (length embedding) = vector_dim (active_schema self st) ->
  exists items,
    get_by_vector self embedding top_k None st = (Ok items, st)
    /\ mapM decoded_hit
         (filter (fun h => PrimFloat.leb 0%float (hit_distance h) = true)
                 (candidates embedding (default 10 top_k)
                             (rows_of (storage_name self) st)))
       = Some items.
Proof. intros Hdec Hq. by apply get_by_vector_run. Qed.

(** C6. With an explicit threshold [t], on a collection that exists
    and whose values were written by [set], [get_by_vector] returns
    exactly the candidates whose score is at least [t], in the engine's
    order, each as the tuple of its key, the payload its stored value
    holds and its score; when no candidate reaches the threshold the
    result is the empty list, and so it is when the collection has no
    record. *)
Theorem get_by_vector_threshold self embedding top_k t st :
  exists_collection (storage_name self) st = true ->
  written (storage_name self) st ->
  Z.of_nat (length embedding) = vector_dim (active_schema self st) ->
  let hits := candidates embedding (default 10 top_k)
                         (rows_of (storage_name self) st) in
  exists items,
    get_by_vector self embedding top_k (Some t) st = (Ok items, st)
    /\ Forall2
         (fun h item =>
            item.1.1 = hit_key h
            /\ holds item.1.2 (hit_value h)
            /\ item.2 = hit_distance h)
         (filter (fun h => PrimFloat.leb t (hit_distance h) = true) hits)
         items
    /\ ((forall h, h ∈ hits -> PrimFloat.leb t (hit_distance h) = false) ->
        items = [])
    /\ (rows_of (storage_name self) st = [] -> items = []).
Proof.
  intros _ Hw Hq hits.
  destruct (keep_match_foldl_holds t hits []
              (candidates_written self embedding (default 10 top_k) st Hw))
    as (items & Hfold & Hall).
  exists items. split; [|split; [done|split]].
  - unfold get_by_vector, mbind, M_bind.
    rewrite (search_run self embedding _ st Hq).
    change (default 0%float (Some t)) with t. fold hits.
    unfold lift. by rewrite Hfold.
  - intros Hbelow.
    assert (filter (fun h => PrimFloat.leb t (hit_distance h) = true) hits = [])
      as Hnone.
    { clear Hfold Hall. induction hits as [|h hs IH]; [done|].
      rewrite filter_cons_False.
      - apply IH. intros h' Hin. apply Hbelow. by apply list_elem_of_further.
      - rewrite (Hbelow h) by apply list_elem_of_here. done. }
    rewrite Hnone in Hall. by apply Forall2_nil_inv_l in Hall.
  - intros Hempty. subst hits. rewrite Hempty, candidates_nil in Hall.
    by apply Forall2_nil_inv_l in Hall.
Qed.




End Claims.

(** ** The reference runtime satisfies the laws *)

Section Base64.
Local Open Scope N_scope.

Lemma b64_index_char n : n < 64 -> b64_index (b64_char n) = Some n.
Proof.
  intros Hn.
  assert (Hcases : forall k, (k < 64)%nat ->
            b64_index (b64_char (N.of_nat k)) = Some (N.of_nat k)).
  { intros k Hk. do 64 (destruct k as [|k]; [vm_compute; reflexivity|]). lia. }
  specialize (Hcases (N.to_nat n)). rewrite N2Nat.id in Hcases. apply Hcases. lia.
Qed.

Lemma b64_char_not_pad n : n < 64 -> is_pad (b64_char n) = false.
Proof.
  intros Hn.
  assert (Hcases : forall k, (k < 64)%nat -> is_pad (b64_char (N.of_nat k)) = false).
  { intros k Hk. do 64 (destruct k as [|k]; [vm_compute; reflexivity|]). lia. }
  specialize (Hcases (N.to_nat n)). rewrite N2Nat.id in Hcases. apply Hcases. lia.
Qed.


Lemma to_N_lt a : Byte.to_N a < 256.
Proof. pose proof (Byte.to_N_bounded a). lia. Qed.

Section Base64Arith.
Local Ltac Zify.zify_post_hook ::= Z.to_euclidean_division_equations.

Lemma sextet_bounds a b c :
  a < 256 -> b < 256 -> c < 256 ->
  a / 4 < 64 /\ a mod 4 * 16 + b / 16 < 64 /\ b mod 16 * 4 + c / 64 < 64
  /\ c mod 64 < 64 /\ a mod 4 * 16 < 64 /\ b mod 16 * 4 < 64.
Proof. lia. Qed.

Lemma regroup_first a b :
  b < 256 -> a / 4 * 4 + (a mod 4 * 16 + b / 16) / 16 = a.
Proof. lia. Qed.

Lemma regroup_first_pad a : a / 4 * 4 + (a mod 4 * 16) / 16 = a.
Proof. lia. Qed.

Lemma regroup_second a b c :
  b < 256 -> c < 256 ->
  (a mod 4 * 16 + b / 16) mod 16 * 16 + (b mod 16 * 4 + c / 64) / 4 = b.
Proof. lia. Qed.

Lemma regroup_second_pad a b :
  b < 256 ->
  (a mod 4 * 16 + b / 16) mod 16 * 16 + (b mod 16 * 4) / 4 = b.
Proof. lia. Qed.

Lemma regroup_third b c :
  c < 256 ->
  (b mod 16 * 4 + c / 64) mod 4 * 64 + c mod 64 = c.
Proof. lia. Qed.
End Base64Arith.

Lemma ref_b64decode_encode bs : ref_b64decode (ref_b64encode bs) = Some bs.
Proof.
  assert (Hind : forall n bs, (length bs < n)%nat ->
            ref_b64decode (ref_b64encode bs) = Some bs).
  { clear bs. induction n as [|n IH]; intros bs Hlen; [inversion Hlen|].
    destruct bs as [|a [|b [|c rest]]]; [reflexivity| | |].
    - pose proof (to_N_lt a) as Ha.
      destruct (sextet_bounds _ _ _ Ha Ha Ha) as (H1 & _ & _ & _ & H2 & _).
      cbn [ref_b64encode ref_b64decode].
      rewrite !b64_index_char by assumption.
      rewrite regroup_first_pad, Byte.of_to_N. reflexivity.
    - pose proof (to_N_lt a) as Ha. pose proof (to_N_lt b) as Hb.
      destruct (sextet_bounds _ _ _ Ha Hb Hb) as (H1 & H2 & _ & _ & _ & H3).
      cbn [ref_b64encode ref_b64decode].
      rewrite !b64_index_char by assumption.
      rewrite regroup_first, Byte.of_to_N by assumption.
      change (is_pad "=") with true. cbv iota.
      rewrite b64_char_not_pad by assumption.
      rewrite regroup_second_pad, Byte.of_to_N by assumption. reflexivity.
    - pose proof (to_N_lt a) as Ha. pose proof (to_N_lt b) as Hb.
      pose proof (to_N_lt c) as Hc.
      destruct (sextet_bounds _ _ _ Ha Hb Hc) as (H1 & H2 & H3 & H4 & _ & _).
      cbn [ref_b64encode ref_b64decode].
      rewrite !b64_index_char by assumption.
      rewrite regroup_first, Byte.of_to_N by assumption.
      rewrite (b64_char_not_pad _ H4).
      rewrite regroup_second, regroup_third, !Byte.of_to_N by assumption.
      rewrite IH by (simpl in Hlen; lia). reflexivity. }
  apply (Hind (S (length bs))). lia.
Qed.

End Base64.

Lemma ref_loads_dumps v bs : ref_dumps v = Some bs -> ref_loads bs = Some v.
Proof.
  destruct v as [|[]| | |s| |]; unfold ref_dumps; intros [= <-]; try done.
  unfold ref_loads. by rewrite string_of_list_byte_of_string.
Qed.

Definition ref_runtime : PyRuntime :=
  {| py_str := ref_str;
     pickle_dumps := ref_dumps;
     pickle_loads := ref_loads;
     b64encode := ref_b64encode;
     b64decode := ref_b64decode;
     py_str_str := fun s => eq_refl;
     pickle_loads_dumps := ref_loads_dumps;
     b64decode_encode := ref_b64decode_encode |}.

(** The engine of the worked examples: cosine similarity, the declared
    lengths enforced, and lists of floats as the only vectors. *)
Definition cosine_index : VectorIndex :=
  {| similarity := cosine;
     enforces_lengths := true;
     read_vector := as_vector;
     read_vector_floats := fun _ _ Hv => Hv |}.


(** ** Worked examples *)

(** A store of dimension 2, as in the spec's similarity example. *)
Definition demo : MilvusLTM := {| storage_name := "test3"; dim := 2 |}.

(** [{"value": payload, "embedding": embedding}] *)
Definition entry (payload : PyVal) (embedding : list float) : PyVal :=
  PyDict {[ "value"%string := payload;
            "embedding"%string := PyList (PyFloat <$> embedding) ]}.


Section Examples.
#[local] Existing Instance ref_runtime.
#[local] Existing Instance cosine_index.

(** The engine after [demo["0"] = {"value": "abc", "embedding": [1.0, 0.0]}]. *)
Definition one_record : Backend :=
  run demo [CSetItem (PyStr "0") (entry (PyStr "abc") [1; 0]%float)] ∅.

(** Three records: scores 1.0, -1.0 and 0.0 against the query [[1.0, 0.0]]. *)
Definition three_records : Backend :=
  run demo [CSetItem (PyStr "0") (entry (PyStr "abc") [1; 0]%float);
            CSetItem (PyStr "1") (entry (PyStr "neg") [-1; 0]%float);
            CSetItem (PyStr "2") (entry (PyStr "orth") [0; 1]%float)] ∅.

Ltac run_model := vm_compute; first [reflexivity | discriminate | done].

Ltac valid_shape_by_run :=
  eexists _, _; repeat split; run_model.



(** C2, the code at the failing input: the key ["0"] is written twice.
    The second [set] finds the record and calls [__delitem__], whose
    [delete] removes nothing; on an engine that appends, the key then
    has two records, and a [get] returns the payload of the first
    write. *)
Lemma overwrite_keeps_the_first_record :
  let first := entry (PyStr "first") [0; 1]%float in
  let second := entry (PyStr "second") [1; 0]%float in
  let st1 := (__setitem__ demo (PyStr "0") first ∅).2 in
  let result := __setitem__ demo (PyStr "0") second st1 in
  (__contains__ demo (PyStr "0") st1).1 = Ok true
  /\ (__delitem__ demo (PyStr "0") st1) = (Ok tt, st1)
  /\ result.1 = Ok tt
  /\ length (live_records "test3" "0" result.2) = 2%nat
  /\ (__getitem__ demo (PyStr "0") result.2).1 = Ok (PyStr "first").
Proof. repeat split; run_model. Qed.



(** C4, counterexample: on an engine without the collection, a [set]
    rejected for its value (not a dictionary) or for a missing
    embedding leaves the collection created. *)
Lemma rejected_set_creates_collection_counterexample :
  let not_a_dict := PyStr "abc" in
  let no_embedding :=
    PyDict {[ "value"%string := PyStr "abc"; "embedding"%string := PyNone ]} in
  exists_collection "test3" ∅ = false
  /\ (__setitem__ demo (PyStr "0") not_a_dict ∅).1
     = Raise (ValueError bad_value_msg)
  /\ exists_collection "test3" (__setitem__ demo (PyStr "0") not_a_dict ∅).2
     = true
  /\ (__setitem__ demo (PyStr "0") no_embedding ∅).1
     = Raise (ValueError no_embedding_msg)
  /\ exists_collection "test3" (__setitem__ demo (PyStr "0") no_embedding ∅).2
     = true.
Proof. repeat split; run_model. Qed.

(** C5, counterexample: the engine returns three candidates for the
    query [[1.0, 0.0]], with scores 1.0, 0.0 and -1.0; called without a
    threshold, [get_by_vector] drops the candidate of score -1.0. *)
Lemma default_threshold_counterexample :
  (search "test3" [[1; 0]%float] 10 three_records).1
  = Ok [[ {| hit_key := "0"; hit_value := "WGFiYw=="; hit_distance := 1 |};
          {| hit_key := "2"; hit_value := "WG9ydGg="; hit_distance := 0 |};
          {| hit_key := "1"; hit_value := "WG5lZw=="; hit_distance := -1 |} ]]
  /\ (get_by_vector demo [1; 0]%float None None three_records).1
     = Ok [("0"%string, PyStr "abc", 1%float);
           ("2"%string, PyStr "orth", 0%float)].
Proof. split; run_model. Qed.

Lemma three_records_written : written (storage_name demo) three_records.
Proof.
  apply (run_written demo _ ∅), empty_written.
Qed.

Lemma three_records_decodable : decodable (storage_name demo) three_records.
Proof. apply written_decodable, three_records_written. Qed.

Lemma get_by_vector_default_threshold_witness :
  exists items,
    get_by_vector demo [1; 0]%float None None three_records
    = (Ok items, three_records)
    /\ mapM decoded_hit
         (filter (fun h => PrimFloat.leb 0%float (hit_distance h) = true)
                 (candidates [1; 0]%float (default 10 None)
                             (rows_of (storage_name demo) three_records)))
       = Some items.
Proof.
  apply (get_by_vector_default_threshold demo [1; 0]%float None three_records).
  - apply three_records_decodable.
  - run_model.
Defined.

Lemma get_by_vector_threshold_witness :
  let hits := candidates [1; 0]%float (default 10 (Some 2))
                (rows_of (storage_name demo) three_records) in
  exists items,
    get_by_vector demo [1; 0]%float (Some 2) (Some 0.5%float) three_records
    = (Ok items, three_records)
    /\ Forall2
         (fun h item =>
            item.1.1 = hit_key h
            /\ holds item.1.2 (hit_value h)
            /\ item.2 = hit_distance h)
         (filter (fun h => PrimFloat.leb 0.5%float (hit_distance h) = true) hits)
         items
    /\ ((forall h, h ∈ hits -> PrimFloat.leb 0.5%float (hit_distance h) = false)
        -> items = [])
    /\ (rows_of (storage_name demo) three_records = [] -> items = []).
Proof.
  apply (get_by_vector_threshold demo [1; 0]%float (Some 2) 0.5%float
           three_records).
  - run_model.
  - apply three_records_written.
  - run_model.
Defined.



(** C8, the code at the failing input: the record of key ["0"] holds
    ["abc"].  [delete] of the key returns normally and leaves the
    engine as it was: the [delete] call of line 126 gets the filter
    text as a primary key, and no record has that key.  A [get] of the
    key still returns ["abc"], and a second [delete] returns normally
    again.  [clear], which passes its expression as [filter=expr],
    removes the record. *)
Lemma delete_leaves_the_record :
  let deleted := __delitem__ demo (PyStr "0") one_record in
  deleted = (Ok tt, one_record)
  /\ (__getitem__ demo (PyStr "0") deleted.2).1 = Ok (PyStr "abc")
  /\ (__contains__ demo (PyStr "0") deleted.2).1 = Ok true
  /\ (__delitem__ demo (PyStr "0") deleted.2).1 = Ok tt
  /\ rows_of "test3" (clear demo one_record).2 = [].
Proof. repeat split; run_model. Qed.




End Examples.

(** ** Further facts about the methods *)

(** The state a call leaves differs from the state before it at most
    in the rows of the store's collection. *)
Definition rows_changed (self : MilvusLTM) (st st' : Backend) : Prop :=
  st' = st \/ exists rows, st' = with_rows self rows st.

Section MoreFacts.
Context `{PyRuntime} `{VectorIndex}.
Implicit Types (self : MilvusLTM) (st : Backend) (key value : PyVal)
  (name key_str : string).

Lemma record_live_records name key_str st :
  (exists r, r ∈ rows_of name st /\ row_key r = key_str) ->
  exists row rest, live_records name key_str st = row :: rest.
Proof.
  intros (r & Hin & Hk). unfold live_records.
  destruct (filter _ _) as [|row rest] eqn:E; [|eauto]. exfalso.
  apply (filter_nil_not_elem_of _ _ r E); [by apply matches_eq|done].
Qed.

Lemma live_records_record name key_str st row rest :
  live_records name key_str st = row :: rest ->
  row ∈ rows_of name st /\ row_key row = key_str.
Proof.
  intros E.
  assert (row ∈ live_records name key_str st) as Hin
    by (rewrite E; apply list_elem_of_here).
  unfold live_records in Hin. apply list_elem_of_filter in Hin as [Hm Hin].
  split; [done|]. by apply matches_eq.
Qed.

Lemma live_records_exists name key_str st r rs :
  live_records name key_str st = r :: rs ->
  exists_collection name st = true.
Proof.
  unfold live_records, rows_of, exists_collection.
  by destruct (st !! name).
Qed.

Lemma traverse_Ok {A B} (f : A -> Result B) (l : list A) :
  Forall (fun x => exists y, f x = Ok y) l ->
  exists ys, traverse f l = Ok ys /\ Forall2 (fun x y => f x = Ok y) l ys.
Proof.
  induction 1 as [|x l [y Hy] _ (ys & Hys & Hall)].
  - exists []. split; [done|constructor].
  - exists (y :: ys). simpl. rewrite Hy, Hys. split; [done|by constructor].
Qed.


(** The [delete] call of [__delitem__] leaves the records of every key
    whose string is plain. *)
Lemma live_records_without_ids self key_str key_str' st :
  plain key_str' = true ->
  live_records (storage_name self) key_str'
    (with_rows self
       (without_ids [key_filter key_str] (rows_of (storage_name self) st)) st)
  = live_records (storage_name self) key_str' st.
Proof.
  intros Hp. rewrite live_records_with_rows.
  by apply filter_without_ids, plain_not_key_filter.
Qed.

Lemma setitem_exists self key value st :
  exists_collection (storage_name self) (__setitem__ self key value st).2 = true.
Proof.
  rewrite setitem_run. cbv zeta.
  destruct (value_and_embedding value) as [[actual_value emb]|];
    [|by apply exists_with_rows].
  destruct (pickle_dumps actual_value); [|by apply exists_with_rows].
  destruct (is_None emb); [by apply exists_with_rows|].
  destruct (fits _ _); by apply exists_with_rows.
Qed.

(** A [set] of a key leaves the records of every other key whose
    string is plain. *)
Lemma setitem_other_records self key value key_str' st :
  plain key_str' = true -> key_str' <> py_str key ->
  live_records (storage_name self) key_str' (__setitem__ self key value st).2
  = live_records (storage_name self) key_str' st.
Proof.
  intros Hp Hne. rewrite setitem_run. cbv zeta.
  assert (Hcreated :
    live_records (storage_name self) key_str'
      (with_rows self (rows_of (storage_name self) st) st)
    = live_records (storage_name self) key_str' st)
    by by rewrite live_records_with_rows.
  assert (Hkept :
    filter (fun r => matches (FKeyEq key_str') r = true)
      match found (storage_name self) (py_str key) st with
      | [] => rows_of (storage_name self) st
      | _ :: _ => without_ids [key_filter (py_str key)]
                    (rows_of (storage_name self) st)
      end
    = live_records (storage_name self) key_str' st).
  { destruct (found _ _ _); [done|].
    by apply filter_without_ids, plain_not_key_filter. }
  destruct (value_and_embedding value) as [[actual_value emb]|]; [|done].
  destruct (pickle_dumps actual_value); [|done].
  destruct (is_None emb); [done|].
  destruct (fits _ _) as [row|] eqn:Hf; cbn [snd];
    rewrite live_records_with_rows; [|done].
  apply fits_Some in Hf as (Hk & _). simpl in Hk.
  rewrite filter_app, Hkept, filter_cons_False, filter_nil, app_nil_r; [done|].
  intros Hm. apply matches_eq in Hm. congruence.
Qed.

Lemma loads_b64_error s e :
  loads_b64 s = Raise e -> e = Base64Error \/ e = UnpicklingError.
Proof.
  unfold loads_b64. destruct (b64decode s) as [bs|].
  - destruct (pickle_loads bs); [done|]. intros [= <-]. by right.
  - intros [= <-]. by left.
Qed.

Lemma update_app self l1 l2 st :
  update self (l1 ++ l2) st
  = match update self l1 st with
    | (Ok _, st1) => update self l2 st1
    | (Raise e, st1) => (Raise e, st1)
    end.
Proof.
  revert st. induction l1 as [|[key value] l1 IH]; intros st; [done|].
  simpl. unfold mbind, M_bind.
  destruct (__setitem__ self key value st) as [[[]|e] st1]; [|done].
  apply IH.
Qed.

Lemma update_run self other st :
  (update self other st).1 = Ok tt ->
  (update self other st).2
  = run self ((fun kv => CSetItem kv.1 kv.2) <$> other) st.
Proof.
  revert st. induction other as [|[key value] rest IH]; intros st; [done|].
  cbn [update]. unfold mbind, M_bind.
  destruct (__setitem__ self key value st) as [[[]|e] st1] eqn:E; [|done].
  intros Hok. rewrite (IH st1 Hok).
  rewrite fmap_cons. unfold run. cbn [foldl exec fst snd]. by rewrite E.
Qed.

Lemma keep_match_foldl_Raise threshold hits e :
  foldl (keep_match threshold) (Raise e) hits = Raise e.
Proof. induction hits as [|h hits IH]; [done|]. simpl. apply IH. Qed.

Lemma keep_match_foldl_undecodable threshold hits acc h e :
  h ∈ hits -> loads_b64 (hit_value h) = Raise e ->
  exists e',
    foldl (keep_match threshold) (Ok acc) hits = Raise e'
    /\ (e' = Base64Error \/ e' = UnpicklingError).
Proof.
  intros Hin He. revert acc.
  induction hits as [|h' hits IH]; intros acc; [by apply elem_of_nil in Hin|].
  cbn [foldl]. unfold keep_match at 2.
  destruct (loads_b64 (hit_value h')) as [v|e1] eqn:E.
  - apply elem_of_cons in Hin as [->|Hin]; [congruence|].
    destruct (PrimFloat.leb threshold (hit_distance h')); by apply IH.
  - exists e1. split; [apply keep_match_foldl_Raise|].
    by eapply loads_b64_error.
Qed.

(** Every call leaves the engine as it was or with the rows of the
    store's collection replaced. *)
Lemma rows_changed_refl self st : rows_changed self st st.
Proof. by left. Qed.

Lemma rows_changed_with_rows self rows st :
  rows_changed self st (with_rows self rows st).
Proof. right. eauto. Qed.

Lemma rows_changed_trans self st1 st2 st3 :
  rows_changed self st1 st2 -> rows_changed self st2 st3 ->
  rows_changed self st1 st3.
Proof.
  intros [->|[rows ->]] [->|[rows' ->]].
  - by left.
  - right. eauto.
  - right. eauto.
  - right. exists rows'. by rewrite with_rows_with_rows.
Qed.

Lemma setitem_rows_changed self key value st :
  rows_changed self st (__setitem__ self key value st).2.
Proof.
  rewrite setitem_run. cbv zeta.
  destruct (value_and_embedding value) as [[actual_value embedding]|];
    [|apply rows_changed_with_rows].
  destruct (pickle_dumps actual_value); [|apply rows_changed_with_rows].
  destruct (is_None embedding); [apply rows_changed_with_rows|].
  destruct (fits _ _); apply rows_changed_with_rows.
Qed.

Lemma update_rows_changed self other st :
  rows_changed self st (update self other st).2.
Proof.
  revert st. induction other as [|[key value] rest IH]; intros st;
    [apply rows_changed_refl|].
  simpl. unfold mbind, M_bind.
  pose proof (setitem_rows_changed self key value st) as Hset.
  destruct (__setitem__ self key value st) as [[[]|e] st1]; simpl in Hset.
  - eapply rows_changed_trans; [exact Hset|apply IH].
  - done.
Qed.

Lemma delitem_rows_changed self key st :
  rows_changed self st (__delitem__ self key st).2.
Proof.
  destruct (exists_collection (storage_name self) st) eqn:E.
  - rewrite delitem_run by done. destruct (found _ _ _);
      [apply rows_changed_refl|apply rows_changed_with_rows].
  - rewrite delitem_missing by done. apply rows_changed_refl.
Qed.

Lemma clear_rows_changed self st : rows_changed self st (clear self st).2.
Proof.
  destruct (exists_collection (storage_name self) st) eqn:E.
  - rewrite clear_run by done. apply rows_changed_with_rows.
  - rewrite clear_missing by done. apply rows_changed_refl.
Qed.

Lemma pop_rows_changed self key default st :
  rows_changed self st (pop self key default st).2.
Proof.
  destruct (exists_collection (storage_name self) st) eqn:E.
  - rewrite pop_run by done. destruct (found _ _ _) as [|r rs];
      [apply rows_changed_refl|].
    destruct (loads_b64 (row_value r));
      [apply rows_changed_with_rows|apply rows_changed_refl].
  - rewrite pop_missing by done. apply rows_changed_refl.
Qed.

Lemma exec_rows_changed self c st : rows_changed self st (exec self c st).
Proof.
  destruct c; unfold exec.
  - apply setitem_rows_changed.
  - rewrite getitem_frame. apply rows_changed_refl.
  - apply delitem_rows_changed.
  - rewrite contains_frame. apply rows_changed_refl.
  - rewrite len_frame. apply rows_changed_refl.
  - rewrite keys_frame. apply rows_changed_refl.
  - rewrite values_run. apply rows_changed_refl.
  - rewrite items_frame. apply rows_changed_refl.
  - rewrite get_frame. apply rows_changed_refl.
  - apply clear_rows_changed.
  - apply pop_rows_changed.
  - apply update_rows_changed.
  - rewrite get_by_vector_frame. apply rows_changed_refl.
Qed.


Lemma run_rows_changed self calls st : rows_changed self st (run self calls st).
Proof.
  revert st. induction calls as [|c calls IH]; intros st;
    [apply rows_changed_refl|].
  simpl. eapply rows_changed_trans; [apply exec_rows_changed|apply IH].
Qed.

End MoreFacts.

(** ** Further properties of the methods *)

Section MoreProperties.
Context `{PyRuntime} `{VectorIndex}.
Implicit Types (self : MilvusLTM) (st : Backend) (key value : PyVal)
  (name key_str : string).

(** X7. [update] applies [set] to the pairs in order: the empty update
    does nothing (it does not even create the collection), an update
    with one pair is that [set], an update of two lists in a row is the
    update of the first followed, when it did not raise, by the update
    of the second, and a successful update leaves the state the [set]s
    leave one after the other. *)
Theorem update_is_sequential self key value pre post st :
  update self [] st = (Ok tt, st)
  /\ update self [(key, value)] st = __setitem__ self key value st
  /\ update self (pre ++ post) st
     = (match update self pre st with
        | (Ok _, st1) => update self post st1
        | (Raise e, st1) => (Raise e, st1)
        end)
  /\ ((update self pre st).1 = Ok tt ->
      (update self pre st).2
      = run self ((fun kv => CSetItem kv.1 kv.2) <$> pre) st).
Proof.
  split; [done|]. split; [|split].
  - cbn [update]. unfold mbind, M_bind.
    by destruct (__setitem__ self key value st) as [[[]|e] st1].
  - apply update_app.
  - apply update_run.
Qed.

(** X8. [update] is not atomic: it stops at the first [set] that
    raises, with that exception; the pairs before it stay written and
    the pairs after it are not applied. *)
Theorem update_stops_at_first_failure self pre key value post e st st1 st2 :
  update self pre st = (Ok tt, st1) ->
  __setitem__ self key value st1 = (Raise e, st2) ->
  update self (pre ++ (key, value) :: post) st = (Raise e, st2).
Proof.
  intros Hpre Hset. rewrite update_app, Hpre.
  cbn [update]. unfold mbind, M_bind. by rewrite Hset.
Qed.

(** X13. [_create_collection] never raises and is idempotent.  It
    leaves an existing collection exactly as it is, with the schema it
    was created with, whatever the [dim] of the store; otherwise it
    creates the collection, empty, with the store's schema.  Other
    collections are not touched. *)
Theorem create_collection_idempotent self other st :
  let st' := (_create_collection self st).2 in
  _create_collection self st = (Ok tt, st')
  /\ _create_collection self st' = (Ok tt, st')
  /\ (exists_collection (storage_name self) st = true -> st' = st)
  /\ (exists_collection (storage_name self) st = false ->
      st' !! storage_name self
      = Some {| coll_schema := ltm_schema self; coll_rows := [] |})
  /\ (other <> storage_name self -> st' !! other = st !! other).
Proof.
  intros st'. subst st'. rewrite !create_collection_run. cbn [snd].
  split; [done|]. split; [|split; [|split]].
  - by rewrite rows_of_with_rows, with_rows_with_rows.
  - apply with_rows_id.
  - unfold exists_collection, with_rows, active_schema, rows_of.
    destruct (st !! storage_name self) eqn:E; [done|].
    intros _. by rewrite lookup_insert_eq.
  - intros Hne. unfold with_rows. by rewrite lookup_insert_ne.
Qed.

(** X14. The checks of [set] run in the order of the source: a value
    that is not a dictionary with both items raises [ValueError]; then
    a payload that cannot be pickled raises the pickling error, even
    when the embedding is [None]; then an embedding that is [None]
    raises [ValueError].  Whenever [set] raises one of these, no record
    was read, deleted or written: the rows are as before, and every key
    of a collection that existed reads as before; when the collection
    did not exist it has been created, and a key then reads as
    absent. *)
Theorem rejected_setitem_keeps_records self key key' value st :
  let result := __setitem__ self key value st in
  (value_and_embedding value = None ->
   result.1 = Raise (ValueError bad_value_msg))
  /\ (forall payload embedding,
        value_and_embedding value = Some (payload, embedding) ->
        pickle_dumps payload = None ->
        result.1 = Raise PicklingError)
  /\ (forall payload value_bytes,
        value_and_embedding value = Some (payload, PyNone) ->
        pickle_dumps payload = Some value_bytes ->
        result.1 = Raise (ValueError no_embedding_msg))
  /\ ((result.1 = Raise PicklingError \/
       exists msg, result.1 = Raise (ValueError msg)) ->
      rows_of (storage_name self) result.2 = rows_of (storage_name self) st
      /\ if exists_collection (storage_name self) st
         then (__getitem__ self key' result.2).1 = (__getitem__ self key' st).1
         else (__getitem__ self key' result.2).1
              = Raise (KeyError (not_found_msg (py_str key')))).
Proof.
  intros result. subst result. rewrite setitem_run. cbv zeta.
  split; [by intros ->|]. split; [by intros payload embedding -> ->|].
  split; [by intros payload value_bytes -> ->|].
  assert (Hcreated :
    rows_of (storage_name self)
      (with_rows self (rows_of (storage_name self) st) st)
    = rows_of (storage_name self) st
    /\ if exists_collection (storage_name self) st
       then (__getitem__ self key'
               (with_rows self (rows_of (storage_name self) st) st)).1
            = (__getitem__ self key' st).1
       else (__getitem__ self key'
               (with_rows self (rows_of (storage_name self) st) st)).1
            = Raise (KeyError (not_found_msg (py_str key')))).
  { split; [by rewrite rows_of_with_rows|].
    destruct (exists_collection (storage_name self) st) eqn:E.
    - by rewrite with_rows_id.
    - rewrite getitem_run by apply exists_with_rows.
      rewrite found_with_rows.
      unfold exists_collection in E. unfold rows_of.
      by destruct (st !! storage_name self). }
  destruct (value_and_embedding value) as [[payload embedding]|]; [|done].
  destruct (pickle_dumps payload); [|done].
  destruct (is_None embedding); [done|].
  destruct (fits _ _); cbn [fst]; intros [Hr|[msg Hr]]; discriminate.
Qed.


(** X15. What [get_by_vector] returns: at most [top_k] tuples (10 when
    no cap is given); each has a score of at least the threshold, and
    is the key, the decoded value and the similarity to the query of
    one stored row. *)
Theorem get_by_vector_results self embedding top_k threshold st :
  decodable (storage_name self) st ->
  Z.of_nat (length embedding) = vector_dim (active_schema self st) ->
  exists items,
    get_by_vector self embedding top_k threshold st = (Ok items, st)
    /\ (length items <= Z.to_nat (default 10%Z top_k))%nat
    /\ Forall
         (fun item : string * PyVal * float =>
            PrimFloat.leb (default 0%float threshold) item.2 = true
            /\ exists r,
                 r ∈ rows_of (storage_name self) st
                 /\ item.1.1 = row_key r
                 /\ loads_b64 (row_value r) = Ok item.1.2
                 /\ item.2 = similarity embedding (row_embedding r))
         items.
Proof.
  intros Hdec Hq.
  destruct (get_by_vector_run self embedding top_k threshold st Hdec Hq)
    as (items & Hrun & Hmap).
  exists items. split; [done|].
  set (hits := candidates embedding (default 10 top_k)
                          (rows_of (storage_name self) st)) in *.
  apply mapM_Some_1 in Hmap. split.
  - rewrite <- (Forall2_length _ _ _ Hmap).
    etrans; [apply length_filter|].
    subst hits. unfold candidates. rewrite length_take. lia.
  - apply Forall_forall. intros item Hin.
    apply list_elem_of_lookup_1 in Hin as [i Hi].
    destruct (Forall2_lookup_r _ _ _ _ _ Hmap Hi) as (h & Hh & Hd).
    apply list_elem_of_lookup_2, list_elem_of_filter in Hh as [Hle Hh].
    subst hits. apply elem_of_candidates in Hh as (r & Hr & ->).
    unfold decoded_hit in Hd. cbn [hit_value hit_key hit_distance score] in *.
    destruct (loads_b64 (row_value r)) as [v|] eqn:Hv; [|done].
    injection Hd as <-. cbn [fst snd]. split; [done|].
    exists r. by rewrite Hv.
Qed.

(** X16. [get_by_vector] decodes every candidate before it compares
    the score: one candidate whose stored value does not decode makes
    the call raise, whatever its score and the threshold. *)
Theorem get_by_vector_undecodable_candidate self embedding top_k threshold
    h e st :
  Z.of_nat (length embedding) = vector_dim (active_schema self st) ->
  h ∈ candidates embedding (default 10 top_k)
                 (rows_of (storage_name self) st) ->
  loads_b64 (hit_value h) = Raise e ->
  exists e',
    get_by_vector self embedding top_k threshold st = (Raise e', st)
    /\ (e' = Base64Error \/ e' = UnpicklingError).
Proof.
  intros Hq Hin He. unfold get_by_vector, mbind, M_bind.
  rewrite (search_run self embedding _ st Hq). unfold lift.
  destruct (keep_match_foldl_undecodable (default 0%float threshold)
              _ [] h e Hin He) as (e' & Hfold & Herr).
  exists e'. by rewrite Hfold.
Qed.

(** X17. No sequence of calls touches another collection of the
    engine, changes the schema of the store's collection, or drops the
    collection once it exists. *)
Theorem calls_stay_in_the_collection self calls other st :
  other <> storage_name self ->
  run self calls st !! other = st !! other
  /\ active_schema self (run self calls st) = active_schema self st
  /\ (exists_collection (storage_name self) st = true ->
      exists_collection (storage_name self) (run self calls st) = true).
Proof.
  intros Hne.
  destruct (run_rows_changed self calls st) as [->|[rows ->]]; [done|].
  split; [|split].
  - unfold with_rows. by rewrite lookup_insert_ne.
  - apply active_schema_with_rows.
  - intros _. apply exists_with_rows.
Qed.

(** X1. [pop] of a key that has a record returns what [get] returns,
    but removes nothing that a key with a plain string reads: its
    [__delitem__] passes the filter text to [delete] as a primary key.
    The records of every such key, the popped one included, are as
    before, and the key is still found. *)
Theorem pop_returns_and_keeps self key default row rest v st :
  plain (py_str key) = true ->
  live_records (storage_name self) (py_str key) st = row :: rest ->
  loads_b64 (row_value row) = Ok v ->
  let st' := (pop self key default st).2 in
  pop self key default st = (Ok v, st')
  /\ (__getitem__ self key st).1 = Ok v
  /\ (forall key_str,
        plain key_str = true ->
        live_records (storage_name self) key_str st'
        = live_records (storage_name self) key_str st)
  /\ __contains__ self key st' = (Ok true, st')
  /\ __getitem__ self key st' = (Ok v, st').
Proof.
  intros Hp Hlive Hv st'.
  pose proof (live_records_exists _ _ _ _ _ Hlive) as Hex.
  assert (Hst' : st' = with_rows self
            (without_ids [key_filter (py_str key)]
               (rows_of (storage_name self) st)) st)
    by (subst st'; by rewrite pop_run, found_plain, Hlive, Hv).
  assert (Hkept : forall key_str,
    plain key_str = true ->
    live_records (storage_name self) key_str st'
    = live_records (storage_name self) key_str st)
    by (intros key_str Hk; rewrite Hst'; by apply live_records_without_ids).
  assert (Hex' : exists_collection (storage_name self) st' = true)
    by (rewrite Hst'; apply exists_with_rows).
  split; [|split; [|split; [done|split]]].
  - subst st'. by rewrite pop_run, found_plain, Hlive, Hv.
  - by rewrite getitem_run, found_plain, Hlive, Hv.
  - by rewrite contains_run, found_plain, Hkept, Hlive.
  - by rewrite getitem_run, found_plain, Hkept, Hlive, Hv.
Qed.


(** X4. In a collection that exists, [contains] of a key with a plain
    string does not raise and changes nothing; it is true exactly when
    some row has the key's string, and when it is false [get] raises
    [KeyError]. *)
Theorem contains_iff_record self key st :
  exists_collection (storage_name self) st = true ->
  plain (py_str key) = true ->
  exists present : bool,
    __contains__ self key st = (Ok present, st)
    /\ (present = true <->
        exists r, r ∈ rows_of (storage_name self) st /\ row_key r = py_str key)
    /\ (present = false ->
        __getitem__ self key st
        = (Raise (KeyError (not_found_msg (py_str key))), st)).
Proof.
  intros Hex Hp. rewrite contains_run, getitem_run, found_plain by done.
  destruct (live_records (storage_name self) (py_str key) st) as [|row rest] eqn:E.
  - exists false. split; [done|]. split; [|done].
    split; [done|]. intros Hr.
    apply record_live_records in Hr as (row & rest & Hl). congruence.
  - exists true. split; [done|]. split.
    + split; [|done]. intros _. exists row.
      by eapply live_records_record.
    + done.
Qed.

(** X5. [set], [delete] and [pop] of a key do not change the records of
    another key (one with a different string form, and plain), whether
    the call succeeds or raises; in a collection that exists, a [get]
    of the other key gives after a [set] what it gave before. *)
Theorem other_keys_untouched self key key_str' value default st :
  plain key_str' = true ->
  key_str' <> py_str key ->
  live_records (storage_name self) key_str' (__setitem__ self key value st).2
  = live_records (storage_name self) key_str' st
  /\ live_records (storage_name self) key_str' (__delitem__ self key st).2
     = live_records (storage_name self) key_str' st
  /\ live_records (storage_name self) key_str' (pop self key default st).2
     = live_records (storage_name self) key_str' st
  /\ (exists_collection (storage_name self) st = true ->
      (__getitem__ self (PyStr key_str') (__setitem__ self key value st).2).1
      = (__getitem__ self (PyStr key_str') st).1).
Proof.
  intros Hp Hne.
  split; [by apply setitem_other_records|]. split; [|split].
  - destruct (exists_collection (storage_name self) st) eqn:E.
    + rewrite delitem_run by done. destruct (found _ _ _); [done|].
      by apply live_records_without_ids.
    + by rewrite delitem_missing.
  - destruct (exists_collection (storage_name self) st) eqn:E.
    + rewrite pop_run by done. destruct (found _ _ _) as [|r rs]; [done|].
      destruct (loads_b64 (row_value r)); [|done].
      by apply live_records_without_ids.
    + by rewrite pop_missing.
  - intros Hex. rewrite !getitem_run by (done || apply setitem_exists).
    rewrite py_str_str, !found_plain by done.
    by rewrite setitem_other_records.
Qed.


(** X10. Size and writes: the first write of a key other than the empty
    string, of valid shape and with a plain string, makes the size one
    larger. *)
Theorem len_after_setitem self key value payload embedding st :
  value_and_embedding value = Some (payload, embedding) ->
  valid_shape (active_schema self st) (py_str key) payload embedding ->
  plain (py_str key) = true ->
  live_records (storage_name self) (py_str key) st = [] ->
  py_str key <> EmptyString ->
  exists_collection (storage_name self) st = true ->
  let st' := (__setitem__ self key value st).2 in
  exists n,
    __len__ self st = (Ok n, st) /\ __len__ self st' = (Ok (S n), st').
Proof.
  intros Hve Hvalid Hp Hfresh Hne Hex st'.
  destruct (setitem_ok self key value payload embedding st Hve Hvalid)
    as (row & Hk & _ & Hset); [by rewrite found_plain|].
  assert (Hst' : st' = with_rows self (rows_of (storage_name self) st ++ [row]) st)
    by (subst st'; by rewrite Hset).
  eexists. split; [by apply len_run|].
  rewrite len_run by (rewrite Hst'; apply exists_with_rows).
  rewrite Hst', rows_of_with_rows, filter_app, length_app.
  rewrite (filter_cons_True _ row) by (apply matches_ne; congruence).
  cbn [filter list_filter length]. do 2 f_equal. lia.
Qed.

(** X18. A store that is written only through these methods never
    meets a decoding error: after any sequence of calls on an empty
    engine, if the collection exists then [items] returns and [get] of
    any key returns a value or raises [KeyError]; if it does not, both
    are refused by the engine. *)
Theorem written_values_always_decode self calls key :
  let st := run self calls ∅ in
  if exists_collection (storage_name self) st
  then (exists its, items self st = (Ok its, st))
       /\ ((exists v, __getitem__ self key st = (Ok v, st))
           \/ __getitem__ self key st
              = (Raise (KeyError (not_found_msg (py_str key))), st))
  else items self st = (Raise MilvusException, st)
       /\ __getitem__ self key st = (Raise MilvusException, st).
Proof.
  intros st.
  assert (Hdec : decodable (storage_name self) st)
    by (apply run_decodable, empty_decodable).
  destruct (exists_collection (storage_name self) st) eqn:Hex;
    [|by rewrite items_missing, getitem_missing].
  unfold decodable in Hdec. rewrite Forall_forall in Hdec.
  split.
  - rewrite items_run by done.
    destruct (traverse_Ok
                (fun item =>
                   match loads_b64 (row_value item) with
                   | Raise e => Raise e
                   | Ok value => Ok (row_key item, value)
                   end)
                (filter (fun r => matches (FKeyNe EmptyString) r = true)
                        (rows_of (storage_name self) st)))
      as (its & -> & _); [|eauto].
    apply Forall_forall. intros r Hin.
    apply list_elem_of_filter in Hin as [_ Hin].
    destruct (Hdec r Hin) as [v ->]. eauto.
  - rewrite getitem_run by done.
    destruct (found (storage_name self) (py_str key) st)
      as [|row rest] eqn:E; [by right|].
    left.
    assert (row ∈ live_records (storage_name self) (py_str key) st) as Hin
      by (apply found_live; rewrite E; apply list_elem_of_here).
    apply list_elem_of_filter in Hin as [_ Hin].
    destruct (Hdec row Hin) as [v ->]. eauto.
Qed.

(** X20. A [delete] of a key that has a record returns normally, but
    removes nothing that a key with a plain string reads: line 126
    passes the filter text to [delete] as a primary key.  The records of
    every such key, the deleted one included, are as before, and the key
    is still found. *)
Theorem delitem_keeps_the_record self key row rest st :
  plain (py_str key) = true ->
  live_records (storage_name self) (py_str key) st = row :: rest ->
  let st' := (__delitem__ self key st).2 in
  __delitem__ self key st = (Ok tt, st')
  /\ (forall key_str,
        plain key_str = true ->
        live_records (storage_name self) key_str st'
        = live_records (storage_name self) key_str st)
  /\ __contains__ self key st' = (Ok true, st')
  /\ (__getitem__ self key st').1 = (__getitem__ self key st).1.
Proof.
  intros Hp Hlive st'.
  pose proof (live_records_exists _ _ _ _ _ Hlive) as Hex.
  assert (Hst' : st' = with_rows self
            (without_ids [key_filter (py_str key)]
               (rows_of (storage_name self) st)) st)
    by (subst st'; by rewrite delitem_run, found_plain, Hlive).
  assert (Hkept : forall key_str,
    plain key_str = true ->
    live_records (storage_name self) key_str st'
    = live_records (storage_name self) key_str st)
    by (intros key_str Hk; rewrite Hst'; by apply live_records_without_ids).
  assert (Hex' : exists_collection (storage_name self) st' = true)
    by (rewrite Hst'; apply exists_with_rows).
  split; [|split; [done|split]].
  - subst st'. by rewrite delitem_run, found_plain, Hlive.
  - by rewrite contains_run, found_plain, Hkept, Hlive.
  - by rewrite !getitem_run, !found_plain, Hkept.
Qed.


End MoreProperties.

(** ** Worked examples for the further properties *)

(** An engine whose collection holds one row with a value that is not
    Base64, as another writer could leave it. *)
Definition corrupted : Backend :=
  {[ "test3"%string :=
       {| coll_schema := ltm_schema demo;
          coll_rows := [ {| row_key := "0"; row_value := "%%%";
                            row_embedding := [1; 0]%float |} ] |} ]}.

Section MoreExamples.
#[local] Existing Instance ref_runtime.
#[local] Existing Instance cosine_index.

Ltac run_model := vm_compute; first [reflexivity | discriminate | done].

Ltac valid_shape_by_run :=
  eexists _, _; repeat split; run_model.

(** The one row of [one_record]. *)
Definition the_record : Row :=
  {| row_key := "0"; row_value := "WGFiYw=="; row_embedding := [1; 0]%float |}.


Lemma pop_returns_and_keeps_witness :
  let st' := (pop demo (PyStr "0") None one_record).2 in
  pop demo (PyStr "0") None one_record = (Ok (PyStr "abc"), st')
  /\ (__getitem__ demo (PyStr "0") one_record).1 = Ok (PyStr "abc")
  /\ (forall key_str,
        plain key_str = true ->
        live_records (storage_name demo) key_str st'
        = live_records (storage_name demo) key_str one_record)
  /\ __contains__ demo (PyStr "0") st' = (Ok true, st')
  /\ __getitem__ demo (PyStr "0") st' = (Ok (PyStr "abc"), st').
Proof.
  apply (pop_returns_and_keeps demo (PyStr "0") None the_record []
           (PyStr "abc") one_record); run_model.
Defined.


Lemma contains_iff_record_witness :
  exists present : bool,
    __contains__ demo (PyStr "0") one_record = (Ok present, one_record)
    /\ (present = true <->
        exists r, r ∈ rows_of (storage_name demo) one_record
                  /\ row_key r = py_str (PyStr "0"))
    /\ (present = false ->
        __getitem__ demo (PyStr "0") one_record
        = (Raise (KeyError (not_found_msg (py_str (PyStr "0")))), one_record)).
Proof.
  apply (contains_iff_record demo (PyStr "0") one_record); run_model.
Defined.

Lemma other_keys_untouched_witness :
  let value := entry (PyStr "neg") [-1; 0]%float in
  live_records (storage_name demo) "0"
    (__setitem__ demo (PyStr "1") value one_record).2
  = live_records (storage_name demo) "0" one_record
  /\ live_records (storage_name demo) "0"
       (__delitem__ demo (PyStr "1") one_record).2
     = live_records (storage_name demo) "0" one_record
  /\ live_records (storage_name demo) "0"
       (pop demo (PyStr "1") None one_record).2
     = live_records (storage_name demo) "0" one_record
  /\ (exists_collection (storage_name demo) one_record = true ->
      (__getitem__ demo (PyStr "0")
         (__setitem__ demo (PyStr "1") value one_record).2).1
      = (__getitem__ demo (PyStr "0") one_record).1).
Proof.
  apply (other_keys_untouched demo (PyStr "1") "0"
           (entry (PyStr "neg") [-1; 0]%float) None one_record); run_model.
Defined.

Lemma update_stops_at_first_failure_witness :
  let good := entry (PyStr "abc") [1; 0]%float in
  update demo
    ([(PyStr "0", good)] ++ (PyStr "1", PyStr "bad") :: [(PyStr "2", good)]) ∅
  = (Raise (ValueError bad_value_msg),
     (__setitem__ demo (PyStr "1") (PyStr "bad") one_record).2).
Proof.
  apply (update_stops_at_first_failure demo
           [(PyStr "0", entry (PyStr "abc") [1; 0]%float)]
           (PyStr "1") (PyStr "bad")
           [(PyStr "2", entry (PyStr "abc") [1; 0]%float)]
           (ValueError bad_value_msg) ∅ one_record
           (__setitem__ demo (PyStr "1") (PyStr "bad") one_record).2);
    run_model.
Defined.



Lemma len_after_setitem_witness :
  let st' := (__setitem__ demo (PyStr "1") (entry (PyStr "neg") [-1; 0]%float)
                one_record).2 in
  exists n,
    __len__ demo one_record = (Ok n, one_record)
    /\ __len__ demo st' = (Ok (S n), st').
Proof.
  apply (len_after_setitem demo (PyStr "1") (entry (PyStr "neg") [-1; 0]%float)
           (PyStr "neg") (PyList (PyFloat <$> [-1; 0]%float)) one_record).
  - run_model.
  - valid_shape_by_run.
  - run_model.
  - run_model.
  - run_model.
  - run_model.
Defined.

Lemma get_by_vector_results_witness :
  exists items,
    get_by_vector demo [1; 0]%float (Some 2) (Some 0.5%float) three_records
    = (Ok items, three_records)
    /\ (length items <= Z.to_nat (default 10%Z (Some 2%Z)))%nat
    /\ Forall
         (fun item : string * PyVal * float =>
            PrimFloat.leb (default 0%float (Some 0.5%float)) item.2 = true
            /\ exists r,
                 r ∈ rows_of (storage_name demo) three_records
                 /\ item.1.1 = row_key r
                 /\ loads_b64 (row_value r) = Ok item.1.2
                 /\ item.2 = similarity [1; 0]%float (row_embedding r))
         items.
Proof.
  apply (get_by_vector_results demo [1; 0]%float (Some 2) (Some 0.5%float)
           three_records).
  - apply three_records_decodable.
  - run_model.
Defined.

Lemma get_by_vector_undecodable_candidate_witness :
  exists e',
    get_by_vector demo [1; 0]%float None (Some 2%float) corrupted
    = (Raise e', corrupted)
    /\ (e' = Base64Error \/ e' = UnpicklingError).
Proof.
  apply (get_by_vector_undecodable_candidate demo [1; 0]%float None
           (Some 2%float)
           {| hit_key := "0"; hit_value := "%%%"; hit_distance := 1 |}
           Base64Error corrupted).
  - run_model.
  - replace (candidates [1; 0]%float (default 10 None)
               (rows_of (storage_name demo) corrupted))
      with [ {| hit_key := "0"; hit_value := "%%%"; hit_distance := 1 |} ]
      by run_model.
    apply list_elem_of_here.
  - run_model.
Defined.

Lemma calls_stay_in_the_collection_witness :
  let calls := [CSetItem (PyStr "0") (entry (PyStr "abc") [1; 0]%float);
                CClear; CDelItem (PyStr "0")] in
  run demo calls corrupted !! "other"%string = corrupted !! "other"%string
  /\ active_schema demo (run demo calls corrupted) = active_schema demo corrupted
  /\ (exists_collection (storage_name demo) corrupted = true ->
      exists_collection (storage_name demo) (run demo calls corrupted) = true).
Proof.
  apply (calls_stay_in_the_collection demo
           [CSetItem (PyStr "0") (entry (PyStr "abc") [1; 0]%float);
            CClear; CDelItem (PyStr "0")] "other" corrupted).
  run_model.
Defined.


Lemma delitem_keeps_the_record_witness :
  let st' := (__delitem__ demo (PyStr "0") one_record).2 in
  __delitem__ demo (PyStr "0") one_record = (Ok tt, st')
  /\ (forall key_str,
        plain key_str = true ->
        live_records (storage_name demo) key_str st'
        = live_records (storage_name demo) key_str one_record)
  /\ __contains__ demo (PyStr "0") st' = (Ok true, st')
  /\ (__getitem__ demo (PyStr "0") st').1
     = (__getitem__ demo (PyStr "0") one_record).1.
Proof.
  apply (delitem_keeps_the_record demo (PyStr "0") the_record [] one_record);
    run_model.
Defined.


End MoreExamples.
